(** * gojsonschema: format checkers and message makers

    A shallow embedding of [format_checkers.go] and [locales.go].

    Go strings are byte sequences and are modelled by [string] (a list of
    8-bit [ascii] characters).  A value of type [interface{}] that reaches a
    checker comes from a decoded JSON document and is modelled by [value].
    The registry [FormatCheckerChain] owns a Go map, modelled by stdpp's
    [gmap]; its methods mutate the receiver in place and are written in a
    small state monad over the receiver.  The package-level [sync.RWMutex]
    only orders concurrent callers; in the sequential semantics given here
    every method finds it free and leaves it free, so it is not part of the
    state.

    The checkers are thin wrappers around the Go library.  The library
    functions they call are modelled after the Go sources, each in a module
    named after its package: [time.Parse] for the five layouts in use,
    [net.ParseIP], [url.Parse], matching of the five compiled patterns
    ([regexp]) and [fmt.Sprintf] for the verbs of the message templates.
    [mail.ParseAddress] and [regexp.Compile] are parameters
    ([Primitives]). *)

From Stdlib Require Import ZArith Ascii List Bool Lia SpecFloat DecimalString.
From Stdlib Require String.
From stdpp Require Import base option gmap strings.

Set Warnings "-register-all".

(** ** Dynamically typed inputs *)

(** What [encoding/json] decodes into an [interface{}]: [nil], [bool],
    [float64], [string], [[]interface{}] and [map[string]interface{}]. *)
Inductive value : Type :=
| VNil
| VBool (b : bool)
| VNumber (f : spec_float)
| VString (s : string)
| VArray (l : list value)
| VObject (m : list (string * value)).

(** [asString, ok := input.(string)] *)
Definition as_string (input : value) : option string :=
  match input with
  | VString s => Some s
  | _ => None
  end.

(** ** The checker interfaces *)

(** [FormatChecker]: one method, [IsFormat(input interface{}) bool].  Each
    built-in checker is a struct type with an instance of this class. *)
Class FormatChecker (T : Type) := IsFormat : T -> value -> bool.

(** Modelled from the spec: the interface [FormatCheckerWithError] and the
    function [convertToNewChecker] are declared in a file of the repository
    that is not part of the sources at hand.  The registry stores values of
    that interface and calls their [IsFormat] method, which the spec
    describes as the wrapped checker's own verdict ("delegates to it and
    returns its verdict unmodified"). *)
Record FormatCheckerWithError : Type := mkFormatCheckerWithError {
  IsFormatE : value -> bool
}.

Definition convertToNewChecker {T : Type} `{FormatChecker T} (f : T)
  : FormatCheckerWithError :=
  {| IsFormatE := IsFormat f |}.

(** ** The registry *)

Record FormatCheckerChain : Type := mkFormatCheckerChain {
  formatters : gmap string FormatCheckerWithError
}.

Module FormatCheckerChain.

(** Methods with a pointer receiver [c *FormatCheckerChain]: a computation
    reads and writes the receiver and returns a result. *)
Definition M (A : Type) : Type := FormatCheckerChain -> A * FormatCheckerChain.

Definition ret {A} (a : A) : M A := fun c => (a, c).
Definition bind {A B} (m : M A) (k : A -> M B) : M B :=
  fun c => let (a, c') := m c in k a c'.
Definition load : M (gmap string FormatCheckerWithError) :=
  fun c => (formatters c, c).
Definition store (m : gmap string FormatCheckerWithError) : M unit :=
  fun _ => (tt, {| formatters := m |}).

Declare Scope chain_scope.
Delimit Scope chain_scope with chain.
Notation "'let*' x ':=' m 'in' k" := (bind m (fun x => k))
  (at level 10, x name, m at level 100, k at level 200) : chain_scope.
Local Open Scope chain_scope.

(** [c.formatters[name] = convertToNewChecker(f)]; the returned pointer is
    the receiver, so a chained call is the next computation on the same
    state. *)
Definition Add {T : Type} `{FormatChecker T} (name : string) (f : T) : M unit :=
  let fmtCheckerWithErr := convertToNewChecker f in
  let* m := load in
  store (<[name := fmtCheckerWithErr]> m).

(** [delete(c.formatters, name)] *)
Definition Remove (name : string) : M unit :=
  let* m := load in
  store (delete name m).

(** [_, ok := c.formatters[name]; return ok] *)
Definition Has (name : string) : M bool :=
  let* m := load in
  match m !! name with
  | Some _ => ret true
  | None => ret false
  end.

(** [f, ok := c.formatters[name]; if !ok { return true }; return f.IsFormat(input)] *)
Definition IsFormat (name : string) (input : value) : M bool :=
  let* m := load in
  match m !! name with
  | None => ret true
  | Some f => ret (IsFormatE f input)
  end.

End FormatCheckerChain.

(** The result of a method called on the registry [c], and the registry
    that the call leaves *)
Definition result {A} (m : FormatCheckerChain.M A) (c : FormatCheckerChain) : A :=
  fst (m c).
Definition after {A} (m : FormatCheckerChain.M A) (c : FormatCheckerChain)
  : FormatCheckerChain :=
  snd (m c).

(** ** Go strings

    Indexing and slicing of byte strings.  Go panics on an index out of
    range; every use below is guarded by the length test the Go code makes,
    and the functions here return the zero byte or the empty string outside
    the range. *)

Definition byte (c : ascii) : Z := Z.of_N (N_of_ascii c).

(** [lo <= c && c <= hi] on bytes *)
Definition between (lo hi c : ascii) : bool :=
  (byte lo <=? byte c)%Z && (byte c <=? byte hi)%Z.

Definition eqc (a b : ascii) : bool := Ascii.eqb a b.

Definition len (s : string) : nat := String.length s.

(** [s[i]] *)
Fixpoint at_ (s : string) (i : nat) : ascii :=
  match s, i with
  | EmptyString, _ => zero
  | String c _, O => c
  | String _ s', S i' => at_ s' i'
  end.

(** [s[i:]] *)
Fixpoint from (s : string) (i : nat) {struct i} : string :=
  match i, s with
  | O, _ => s
  | S i', String _ s' => from s' i'
  | S _, EmptyString => EmptyString
  end.

(** [s[:i]] *)
Fixpoint upto (s : string) (i : nat) {struct i} : string :=
  match i, s with
  | O, _ => EmptyString
  | S i', String c s' => String c (upto s' i')
  | S _, EmptyString => EmptyString
  end.

(** [s[i:j]] *)
Definition slice (s : string) (i j : nat) : string := upto (from s i) (j - i).

Module strings.

Fixpoint HasPrefix (s prefix : string) {struct prefix} : bool :=
  match prefix, s with
  | EmptyString, _ => true
  | String p prefix', String c s' => eqc c p && HasPrefix s' prefix'
  | String _ _, EmptyString => false
  end.

Definition HasSuffix (s suffix : string) : bool :=
  (len suffix <=? len s) && String.eqb (from s (len s - len suffix)) suffix.

(** [strings.Index]: the position of the first occurrence, or [None] for
    Go's [-1]. *)
Fixpoint Index (s substr : string) : option nat :=
  if HasPrefix s substr then Some O
  else match s with
       | EmptyString => None
       | String _ s' => S <$> Index s' substr
       end.

(** [strings.LastIndex] *)
Fixpoint LastIndex (s substr : string) : option nat :=
  match s with
  | EmptyString => if HasPrefix s substr then Some O else None
  | String _ s' =>
      match LastIndex s' substr with
      | Some i => Some (S i)
      | None => if HasPrefix s substr then Some O else None
      end
  end.

Definition Contains (s substr : string) : bool :=
  match Index s substr with Some _ => true | None => false end.

(** [strings.Count] for a one-byte separator *)
Fixpoint CountByte (s : string) (c : ascii) : nat :=
  match s with
  | EmptyString => O
  | String a s' => (if eqc a c then 1 else 0) + CountByte s' c
  end.

(** [strings.Cut]: [before, after, found] *)
Definition Cut (s sep : string) : string * string * bool :=
  match Index s sep with
  | Some i => (upto s i, from s (i + len sep), true)
  | None => (s, EmptyString, false)
  end.

Definition lower (c : ascii) : ascii :=
  if between "A" "Z" c then ascii_of_N (N_of_ascii c + 32) else c.

(** [strings.ToLower] on the ASCII letters; the only caller passes a URI
    scheme, which consists of ASCII letters, digits, [+], [-] and [.]. *)
Fixpoint ToLower (s : string) : string :=
  match s with
  | EmptyString => EmptyString
  | String c s' => String (lower c) (ToLower s')
  end.

End strings.

(** ** Package [time]: [time.Parse]

    The checkers call [time.Parse] with five fixed layouts and look only at
    the error.  [parse] below is the loop of [time.parse] over the layout
    elements these layouts contain; a layout is given as the sequence of
    (literal prefix, element) pairs that [nextStdChunk] cuts it into,
    followed by the literal text after the last element.  The resulting
    [Time] is built by [time.Date], which cannot fail, so the model returns
    the parsed fields.  The model follows the current Go sources: a comma
    is taken like a period before a fraction of a second, a day of zero is
    out of range, and an offset of more than 24 hours or 60 minutes is. *)
Module time.

Local Open Scope Z_scope.

Inductive std : Set :=
| stdLongYear        (* "2006" *)
| stdZeroMonth       (* "01" *)
| stdZeroDay         (* "02" *)
| stdHour            (* "15" *)
| stdZeroMinute      (* "04" *)
| stdZeroSecond      (* "05" *)
| stdISO8601ColonTZ  (* "Z07:00" *)
| stdFracSecond9.    (* ".999999999" *)

Record layout : Set := mkLayout {
  chunks : list (string * std);
  suffix : string
}.

(** ["15:04:05"] *)
Definition layoutTime : layout :=
  mkLayout [("", stdHour); (":", stdZeroMinute); (":", stdZeroSecond)] "".

(** ["15:04:05Z07:00"] *)
Definition layoutTimeZone : layout :=
  mkLayout [("", stdHour); (":", stdZeroMinute); (":", stdZeroSecond);
            ("", stdISO8601ColonTZ)] "".

(** ["2006-01-02"] *)
Definition layoutDate : layout :=
  mkLayout [("", stdLongYear); ("-", stdZeroMonth); ("-", stdZeroDay)] "".

(** [time.RFC3339 = "2006-01-02T15:04:05Z07:00"] *)
Definition RFC3339 : layout :=
  mkLayout [("", stdLongYear); ("-", stdZeroMonth); ("-", stdZeroDay);
            ("T", stdHour); (":", stdZeroMinute); (":", stdZeroSecond);
            ("", stdISO8601ColonTZ)] "".

(** [time.RFC3339Nano = "2006-01-02T15:04:05.999999999Z07:00"] *)
Definition RFC3339Nano : layout :=
  mkLayout [("", stdLongYear); ("-", stdZeroMonth); ("-", stdZeroDay);
            ("T", stdHour); (":", stdZeroMinute); (":", stdZeroSecond);
            ("", stdFracSecond9); ("", stdISO8601ColonTZ)] "".

(** [isDigit(s, i)]: [len(s) > i] and [s[i]] is a decimal digit *)
Definition isDigit (s : string) (i : nat) : bool :=
  (i <? len s)%nat && between "0" "9" (at_ s i).

(** [int(s[i] - '0')] *)
Definition digit (s : string) (i : nat) : Z := byte (at_ s i) - byte "0".

(** [getnum]: one or two digits; exactly two when [fixed] *)
Definition getnum (s : string) (fixed : bool) : option (Z * string) :=
  if negb (isDigit s 0) then None
  else if negb (isDigit s 1) then
    if fixed then None else Some (digit s 0, from s 1)
  else Some (digit s 0 * 10 + digit s 1, from s 2).

(** [leadingInt]: the leading decimal digits as a [uint64], with the
    overflow tests of the Go code, and the rest of the string *)
Fixpoint leadingInt_from (x : Z) (s : string) : option (Z * string) :=
  match s with
  | EmptyString => Some (x, s)
  | String c s' =>
      if (byte c <? byte "0") || (byte "9" <? byte c) then Some (x, s)
      else if x >? 2 ^ 63 / 10 then None
      else
        let x' := x * 10 + byte c - byte "0" in
        if x' >? 2 ^ 63 then None else leadingInt_from x' s'
  end.

Definition leadingInt (s : string) : option (Z * string) := leadingInt_from 0 s.

(** [atoi]: an optional sign and then digits only *)
Definition atoi (s : string) : option Z :=
  let '(neg, s) :=
    match s with
    | String c s' =>
        if eqc c "-" || eqc c "+" then (eqc c "-", s') else (false, s)
    | EmptyString => (false, s)
    end in
  match leadingInt s with
  | Some (q, EmptyString) => Some (if neg then - q else q)
  | _ => None
  end.

Fixpoint cutspace (s : string) : string :=
  match s with
  | String c s' => if eqc c " " then cutspace s' else s
  | EmptyString => s
  end.

(** [skip(value, prefix)]: [value] without the literal [prefix]; a run of
    spaces in the prefix stands for any run of spaces in the value.
    [cutting] holds while the Go loop is inside [cutspace(prefix)]. *)
Fixpoint skip_from (cutting : bool) (value prefix : string) : option string :=
  match prefix with
  | EmptyString => Some value
  | String p prefix' =>
      if eqc p " " then
        if cutting then skip_from true value prefix'
        else
          match value with
          | String v _ =>
              if negb (eqc v " ") then None
              else skip_from true (cutspace value) prefix'
          | EmptyString => skip_from true (cutspace value) prefix'
          end
      else
        match value with
        | String v value' =>
            if eqc v p then skip_from false value' prefix' else None
        | EmptyString => None
        end
  end.

Definition skip (value prefix : string) : option string :=
  skip_from false value prefix.

Definition commaOrPeriod (c : ascii) : bool := eqc c "." || eqc c ",".

(** Number of leading decimal digits of [s] *)
Fixpoint digits_run (s : string) : nat :=
  match s with
  | String c s' => if between "0" "9" c then S (digits_run s') else O
  | EmptyString => O
  end.

(** [parseNanoseconds(value, nbytes)] *)
Definition parseNanoseconds (value : string) (nbytes : nat) : option Z :=
  if negb (commaOrPeriod (at_ value 0)) then None
  else
    let '(value, nbytes) :=
      if (10 <? nbytes)%nat then (upto value 10, 10%nat) else (value, nbytes) in
    match atoi (slice value 1 nbytes) with
    | None => None
    | Some ns =>
        if ns <? 0 then None
        else Some (ns * 10 ^ Z.of_nat (10 - nbytes))
    end.

Definition daysBefore : list Z :=
  [0; 31; 31 + 28; 31 + 28 + 31; 31 + 28 + 31 + 30; 31 + 28 + 31 + 30 + 31;
   31 + 28 + 31 + 30 + 31 + 30; 31 + 28 + 31 + 30 + 31 + 30 + 31;
   31 + 28 + 31 + 30 + 31 + 30 + 31 + 31;
   31 + 28 + 31 + 30 + 31 + 30 + 31 + 31 + 30;
   31 + 28 + 31 + 30 + 31 + 30 + 31 + 31 + 30 + 31;
   31 + 28 + 31 + 30 + 31 + 30 + 31 + 31 + 30 + 31 + 30;
   31 + 28 + 31 + 30 + 31 + 30 + 31 + 31 + 30 + 31 + 30 + 31].

(** Go's [%] truncates towards zero, as [Z.rem] does. *)
Definition isLeap (year : Z) : bool :=
  (Z.rem year 4 =? 0)
  && (negb (Z.rem year 100 =? 0) || (Z.rem year 400 =? 0)).

Definition February : Z := 2.

Definition daysIn (m year : Z) : Z :=
  if (m =? February) && isLeap year then 29
  else nth (Z.to_nat m) daysBefore 0 - nth (Z.to_nat (m - 1)) daysBefore 0.

(** The variables of [parse] that the layout elements assign. *)
Record fields : Set := mkFields {
  year : Z; month : Z; day : Z;
  hour : Z; min : Z; sec : Z; nsec : Z;
  utc : bool;          (* [z = UTC] *)
  zoneOffset : Z
}.

Definition with_year (v : Z) (f : fields) : fields :=
  mkFields v (month f) (day f) (hour f) (min f) (sec f) (nsec f) (utc f) (zoneOffset f).
Definition with_month (v : Z) (f : fields) : fields :=
  mkFields (year f) v (day f) (hour f) (min f) (sec f) (nsec f) (utc f) (zoneOffset f).
Definition with_day (v : Z) (f : fields) : fields :=
  mkFields (year f) (month f) v (hour f) (min f) (sec f) (nsec f) (utc f) (zoneOffset f).
Definition with_hour (v : Z) (f : fields) : fields :=
  mkFields (year f) (month f) (day f) v (min f) (sec f) (nsec f) (utc f) (zoneOffset f).
Definition with_min (v : Z) (f : fields) : fields :=
  mkFields (year f) (month f) (day f) (hour f) v (sec f) (nsec f) (utc f) (zoneOffset f).
Definition with_sec (v : Z) (f : fields) : fields :=
  mkFields (year f) (month f) (day f) (hour f) (min f) v (nsec f) (utc f) (zoneOffset f).
Definition with_nsec (v : Z) (f : fields) : fields :=
  mkFields (year f) (month f) (day f) (hour f) (min f) (sec f) v (utc f) (zoneOffset f).
Definition with_utc (v : bool) (f : fields) : fields :=
  mkFields (year f) (month f) (day f) (hour f) (min f) (sec f) (nsec f) v (zoneOffset f).
Definition with_zoneOffset (v : Z) (f : fields) : fields :=
  mkFields (year f) (month f) (day f) (hour f) (min f) (sec f) (nsec f) (utc f) v.

Definition init : fields :=
  {| year := 0; month := -1; day := -1; hour := 0; min := 0; sec := 0;
     nsec := 0; utc := false; zoneOffset := -1 |}.

Definition isFrac (o : option std) : bool :=
  match o with Some stdFracSecond9 => true | _ => false end.

(** One case of the [switch std & stdMask] of [parse].  [next] is the
    element that [nextStdChunk] finds in the rest of the layout.  [None]
    stands for both ways out of the case with an error: [err != nil] and
    [rangeErrString != ""]. *)
Definition parseStd (s : std) (next : option std) (f : fields) (value : string)
  : option (fields * string) :=
  match s with
  | stdLongYear =>
      if (len value <? 4)%nat || negb (isDigit value 0) then None
      else
        y ← atoi (upto value 4);
        Some (with_year y f, from value 4)
  | stdZeroMonth =>
      '(m, value) ← getnum value true;
      if (m <=? 0) || (12 <? m) then None
      else Some (with_month m f, value)
  | stdZeroDay =>
      '(d, value) ← getnum value true;
      Some (with_day d f, value)
  | stdHour =>
      '(h, value) ← getnum value false;
      if (h <? 0) || (24 <=? h) then None
      else Some (with_hour h f, value)
  | stdZeroMinute =>
      '(m, value) ← getnum value true;
      if (m <? 0) || (60 <=? m) then None
      else Some (with_min m f, value)
  | stdZeroSecond =>
      '(s, value) ← getnum value true;
      if (s <? 0) || (60 <=? s) then None
      else
        let f := with_sec s f in
        if (2 <=? len value)%nat && commaOrPeriod (at_ value 0) && isDigit value 1
        then
          if isFrac next then Some (f, value)
          else
            let n := (2 + digits_run (from value 2))%nat in
            ns ← parseNanoseconds value n;
            Some (with_nsec ns f, from value n)
        else Some (f, value)
  | stdISO8601ColonTZ =>
      if (1 <=? len value)%nat && eqc (at_ value 0) "Z"
      then Some (with_utc true f, from value 1)
      else
        if (len value <? 6)%nat then None
        else if negb (eqc (at_ value 3) ":") then None
        else
          let sign := slice value 0 1 in
          let hour := slice value 1 3 in
          let min := slice value 4 6 in
          let seconds := "00" in
          let value := from value 6 in
          '(hr, _) ← getnum hour true;
          '(mm, _) ← getnum min true;
          '(ss, _) ← getnum seconds true;
          if (24 <? hr) || (60 <? mm) || (60 <? ss) then None
          else
            let off := (hr * 60 + mm) * 60 + ss in
            if eqc (at_ sign 0) "+" then Some (with_zoneOffset off f, value)
            else if eqc (at_ sign 0) "-" then Some (with_zoneOffset (- off) f, value)
            else None
  | stdFracSecond9 =>
      if (len value <? 2)%nat || negb (commaOrPeriod (at_ value 0))
         || negb (between "0" "9" (at_ value 1))
      then Some (f, value)
      else
        let i := digits_run (from value 1) in
        ns ← parseNanoseconds value (1 + i);
        Some (with_nsec ns f, from value (1 + i))
  end.

(** The [for] loop of [parse]: one iteration for each layout element, and
    the last one, where [nextStdChunk] finds no element and the value has
    to be used up. *)
Fixpoint parseChunks (cs : list (string * std)) (sfx : string)
    (f : fields) (value : string) : option fields :=
  match cs with
  | [] =>
      value ← skip value sfx;
      if (len value =? 0)%nat then Some f else None
  | (prefix, s) :: cs' =>
      value ← skip value prefix;
      '(f, value) ← parseStd s (snd <$> head cs') f value;
      parseChunks cs' sfx f value
  end.

(** The code after the loop: default month and day, and the test of the
    day against the month and the year. *)
Definition validate (f : fields) : option fields :=
  let month := if month f <? 0 then 1 else month f in
  let day := if day f <? 0 then 1 else day f in
  if (day <? 1) || (daysIn month (year f) <? day) then None
  else Some (with_day day (with_month month f)).

(** [time.Parse(layout, value)]: [Some] is [err == nil]. *)
Definition Parse (l : layout) (value : string) : option fields :=
  f ← parseChunks (chunks l) (suffix l) init value;
  validate f.

End time.

(** ** Package [net]: [net.ParseIP]

    [ParseIP] looks for the first [.] or [:] and parses the whole string as a
    dotted-decimal IPv4 address ([parseIPv4]) or as an IPv6 address
    ([parseIPv6]: RFC 4291, with an optional trailing IPv4 part and no
    zone).  An [IP] is a byte slice of length 16;
    [None] is the [nil] result. *)
Module net.

Local Open Scope Z_scope.

Definition IP : Set := list Z.

Definition IPv4len : nat := 4.
Definition IPv6len : nat := 16.

(** Bigger than we need, not too big to worry about overflow *)
Definition big : Z := 0xFFFFFF.

(** [dtoi]: decimal to integer; returns the number, the characters
    consumed and success. *)
Fixpoint dtoi_from (n : Z) (i : nat) (s : string) : Z * nat * bool :=
  match s with
  | String c s' =>
      if between "0" "9" c then
        let n := n * 10 + (byte c - byte "0") in
        if n >=? big then (big, i, false) else dtoi_from n (S i) s'
      else if (i =? 0)%nat then (0, O, false) else (n, i, true)
  | EmptyString => if (i =? 0)%nat then (0, O, false) else (n, i, true)
  end.

Definition dtoi (s : string) : Z * nat * bool := dtoi_from 0 O s.

(** [xtoi]: hexadecimal to integer *)
Fixpoint xtoi_from (n : Z) (i : nat) (s : string) : Z * nat * bool :=
  let stop := if (i =? 0)%nat then (0, i, false) else (n, i, true) in
  match s with
  | String c s' =>
      let next (n : Z) :=
        if n >=? big then (0, i, false) else xtoi_from n (S i) s' in
      if between "0" "9" c then next (n * 16 + (byte c - byte "0"))
      else if between "a" "f" c then next (n * 16 + (byte c - byte "a" + 10))
      else if between "A" "F" c then next (n * 16 + (byte c - byte "A" + 10))
      else stop
  | EmptyString => stop
  end.

Definition xtoi (s : string) : Z * nat * bool := xtoi_from 0 O s.

(** [IPv4(a, b, c, d)]: the 16-byte form of an IPv4 address *)
Definition IPv4 (a b c d : Z) : IP :=
  [0; 0; 0; 0; 0; 0; 0; 0; 0; 0; 0xff; 0xff; a; b; c; d].

(** The loop [for i := 0; i < IPv4len; i++] of [parseIPv4]; [k] counts the
    iterations left and [p] holds the octets read so far. *)
Fixpoint parseIPv4_loop (k : nat) (first : bool) (s : string) (p : list Z)
  : option (list Z * string) :=
  match k with
  | O => Some (p, s)
  | S k' =>
      if (len s =? 0)%nat then None
      else
        s ← (if first then Some s
             else if negb (eqc (at_ s 0) ".") then None else Some (from s 1));
        let '(n, c, ok) := dtoi s in
        if negb ok || (n >? 0xFF) then None
        else if (1 <? c)%nat && eqc (at_ s 0) "0" then None
        else parseIPv4_loop k' false (from s c) (p ++ [n])
  end.

Definition parseIPv4 (s : string) : option IP :=
  '(p, s) ← parseIPv4_loop IPv4len true s [];
  if negb (len s =? 0)%nat then None
  else
    match p with
    | [a; b; c; d] => Some (IPv4 a b c d)
    | _ => None
    end.

(** The state of [parseIPv6] when its loop is left. *)
Record v6state : Set := mkV6 {
  st_ip : IP;
  st_i : nat;
  st_ellipsis : Z;
  st_rest : string
}.

(** The loop [for i < IPv6len] of [parseIPv6].  Every iteration that goes
    round again has stored one 16-bit group, so [i = IPv6len - 2 * k] with
    [k] the number of groups still free; the loop condition fails exactly
    when [k] is zero. *)
Fixpoint parseIPv6_loop (k : nat) (ip : IP) (ellipsis : Z) (s : string)
  : option v6state :=
  let i := (IPv6len - 2 * k)%nat in
  match k with
  | O => Some (mkV6 ip i ellipsis s)
  | S k' =>
      let '(n, c, ok) := xtoi s in
      if negb ok || (n >? 0xFFFF) then None
      else if (c <? len s)%nat && eqc (at_ s c) "." then
        (* trailing IPv4 *)
        if (ellipsis <? 0) && negb (i =? IPv6len - IPv4len)%nat then None
        else if (IPv6len <? i + IPv4len)%nat then None
        else
          ip4 ← parseIPv4 s;
          let ip := <[i := nth 12 ip4 0]> ip in
          let ip := <[S i := nth 13 ip4 0]> ip in
          let ip := <[S (S i) := nth 14 ip4 0]> ip in
          let ip := <[S (S (S i)) := nth 15 ip4 0]> ip in
          Some (mkV6 ip (i + IPv4len) ellipsis "")
      else
        let ip := <[i := Z.land (Z.shiftr n 8) 0xFF]> ip in
        let ip := <[S i := Z.land n 0xFF]> ip in
        let i := (i + 2)%nat in
        let s := from s c in
        if (len s =? 0)%nat then Some (mkV6 ip i ellipsis s)
        else if negb (eqc (at_ s 0) ":") || (len s =? 1)%nat then None
        else
          let s := from s 1 in
          if eqc (at_ s 0) ":" then
            if ellipsis >=? 0 then None
            else
              let ellipsis := Z.of_nat i in
              let s := from s 1 in
              if (len s =? 0)%nat then Some (mkV6 ip i ellipsis s)
              else parseIPv6_loop k' ip ellipsis s
          else parseIPv6_loop k' ip ellipsis s
  end.

(** [for j := i - 1; j >= ellipsis; j-- { ip[j+n] = ip[j] }] and
    [for j := ellipsis + n - 1; j >= ellipsis; j-- { ip[j] = 0 }] *)
Definition expand (ip : IP) (i e : nat) : IP :=
  let n := (IPv6len - i)%nat in
  let ip :=
    fold_left (fun ip j => <[(j + n)%nat := nth j ip 0]> ip)
              (rev (seq e (i - e))) ip in
  fold_left (fun ip j => <[j := 0]> ip) (rev (seq e n)) ip.

Definition parseIPv6 (s : string) : option IP :=
  let ip := repeat 0 IPv6len in
  let lead := (2 <=? len s)%nat && eqc (at_ s 0) ":" && eqc (at_ s 1) ":" in
  let ellipsis := if lead then 0 else -1 in
  let s := if lead then from s 2 else s in
  if lead && (len s =? 0)%nat then Some ip
  else
    st ← parseIPv6_loop 8 ip ellipsis s;
    if negb (len (st_rest st) =? 0)%nat then None
    else if (st_i st <? IPv6len)%nat then
      if st_ellipsis st <? 0 then None
      else Some (expand (st_ip st) (st_i st) (Z.to_nat (st_ellipsis st)))
    else if st_ellipsis st >=? 0 then None
    else Some (st_ip st).

(** [ParseIP]: dispatch on the first [.] or [:] *)
Fixpoint ParseIP_scan (whole s : string) : option IP :=
  match s with
  | String c s' =>
      if eqc c "." then parseIPv4 whole
      else if eqc c ":" then parseIPv6 whole
      else ParseIP_scan whole s'
  | EmptyString => None
  end.

Definition ParseIP (s : string) : option IP := ParseIP_scan s s.

End net.

(** ** Package [net/url]: [url.Parse]

    [Parse] splits off the fragment, the scheme and the query, then the
    authority, and percent-decodes the host, the user information, the path
    and the fragment.  [None] stands for a non-nil error.  The fields
    [RawPath], [RawFragment] and [OmitHost] of [URL] are hints for printing
    that no caller here reads and that cannot make [Parse] fail; they are
    left out. *)
Module url.

Local Open Scope Z_scope.

Inductive encoding : Set :=
| encodePath
| encodePathSegment
| encodeHost
| encodeZone
| encodeUserPassword
| encodeQueryComponent
| encodeFragment.

Definition is_host_mode (mode : encoding) : bool :=
  match mode with encodeHost | encodeZone => true | _ => false end.

Record URL : Set := mkURL {
  Scheme : string;
  Opaque : string;
  User : option (string * option string);
  Host : string;
  Path : string;
  ForceQuery : bool;
  RawQuery : string;
  Fragment : string
}.

Definition dquote : ascii := ascii_of_nat 34.

Definition one_of (c : ascii) (l : list ascii) : bool := existsb (eqc c) l.

Definition ishex (c : ascii) : bool :=
  between "0" "9" c || between "a" "f" c || between "A" "F" c.

Definition unhex (c : ascii) : Z :=
  if between "0" "9" c then byte c - byte "0"
  else if between "a" "f" c then byte c - byte "a" + 10
  else if between "A" "F" c then byte c - byte "A" + 10
  else 0.

(** [shouldEscape(c, mode)] *)
Definition shouldEscape (c : ascii) (mode : encoding) : bool :=
  if between "a" "z" c || between "A" "Z" c || between "0" "9" c then false
  else if is_host_mode mode
          && one_of c ["!"; "$"; "&"; "'"; "("; ")"; "*"; "+"; ","; ";"; "=";
                       ":"; "["; "]"; "<"; ">"; dquote]%char
  then false
  else if one_of c ["-"; "_"; "."; "~"]%char then false
  else
    let reserved :=
      one_of c ["$"; "&"; "+"; ","; "/"; ":"; ";"; "="; "?"; "@"]%char in
    match mode with
    | encodePath =>
        if reserved then eqc c "?" else true
    | encodePathSegment =>
        if reserved then eqc c "/" || eqc c ";" || eqc c "," || eqc c "?"
        else true
    | encodeUserPassword =>
        if reserved then eqc c "@" || eqc c "/" || eqc c "?" || eqc c ":"
        else true
    | encodeQueryComponent => true
    | encodeFragment =>
        if reserved then false
        else if one_of c ["!"; "("; ")"; "*"]%char then false
        else true
    | encodeHost | encodeZone => true
    end.

(** [unescape(s, mode)]: the checks of the first pass and the decoding of
    the second, character by character. *)
Fixpoint unescape (s : string) (mode : encoding) : option string :=
  match s with
  | EmptyString => Some EmptyString
  | String c s1 =>
      if eqc c "%" then
        match s1 with
        | String a (String b s3) =>
            if negb (ishex a) || negb (ishex b) then None
            else
              let is25 := eqc a "2" && eqc b "5" in
              let v := Z.lor (Z.shiftl (unhex a) 4) (unhex b) in
              if match mode with encodeHost => true | _ => false end
                 && (unhex a <? 8) && negb is25
              then None
              else if match mode with encodeZone => true | _ => false end
                      && negb is25 && negb (v =? byte " ")
                      && shouldEscape (ascii_of_N (Z.to_N v)) encodeHost
              then None
              else
                t ← unescape s3 mode;
                Some (String (ascii_of_N (Z.to_N v)) t)
        | _ => None
        end
      else if eqc c "+" then
        t ← unescape s1 mode;
        Some (String (match mode with encodeQueryComponent => " " | _ => "+" end)%char t)
      else if is_host_mode mode && (byte c <? 0x80) && shouldEscape c encodeHost
      then None
      else
        t ← unescape s1 mode;
        Some (String c t)
  end.

(** [getScheme]: [(scheme, path)], or [None] for "missing protocol
    scheme". *)
Fixpoint getScheme_from (i : nat) (rawURL s : string) : option (string * string) :=
  match s with
  | EmptyString => Some (EmptyString, rawURL)
  | String c s' =>
      if between "a" "z" c || between "A" "Z" c then getScheme_from (S i) rawURL s'
      else if between "0" "9" c || eqc c "+" || eqc c "-" || eqc c "." then
        if (i =? 0)%nat then Some (EmptyString, rawURL)
        else getScheme_from (S i) rawURL s'
      else if eqc c ":" then
        if (i =? 0)%nat then None
        else Some (upto rawURL i, from rawURL (S i))
      else Some (EmptyString, rawURL)
  end.

Definition getScheme (rawURL : string) : option (string * string) :=
  getScheme_from O rawURL rawURL.

Fixpoint all_bytes (p : ascii -> bool) (s : string) : bool :=
  match s with
  | EmptyString => true
  | String c s' => p c && all_bytes p s'
  end.

Definition validOptionalPort (port : string) : bool :=
  match port with
  | EmptyString => true
  | String c digits =>
      if negb (eqc c ":") then false
      else all_bytes (between "0" "9") digits
  end.

Definition validUserinfo (s : string) : bool :=
  all_bytes
    (fun r =>
       between "A" "Z" r || between "a" "z" r || between "0" "9" r
       || one_of r ["-"; "."; "_"; ":"; "~"; "!"; "$"; "&"; "'"; "("; ")";
                    "*"; "+"; ","; ";"; "="; "%"; "@"]%char)
    s.

(** [parseHost]: the authority without user information, [host[:port]] *)
Definition parseHost (host : string) : option string :=
  if strings.HasPrefix host "[" then
    match strings.LastIndex host "]" with
    | None => None
    | Some i =>
        let colonPort := from host (i + 1) in
        if negb (validOptionalPort colonPort) then None
        else
          match strings.Index (upto host i) "%25" with
          | Some zone =>
              host1 ← unescape (upto host zone) encodeHost;
              host2 ← unescape (slice host zone i) encodeZone;
              host3 ← unescape (from host i) encodeHost;
              Some (host1 +:+ host2 +:+ host3)
          | None => unescape host encodeHost
          end
    end
  else
    match strings.LastIndex host ":" with
    | Some i =>
        if negb (validOptionalPort (from host i)) then None
        else unescape host encodeHost
    | None => unescape host encodeHost
    end.

Definition parseAuthority (authority : string)
  : option (option (string * option string) * string) :=
  match strings.LastIndex authority "@" with
  | None =>
      host ← parseHost authority;
      Some (None, host)
  | Some i =>
      host ← parseHost (from authority (i + 1));
      let userinfo := upto authority i in
      if negb (validUserinfo userinfo) then None
      else if negb (strings.Contains userinfo ":") then
        userinfo ← unescape userinfo encodeUserPassword;
        Some (Some (userinfo, None), host)
      else
        let '(username, password, _) := strings.Cut userinfo ":" in
        username ← unescape username encodeUserPassword;
        password ← unescape password encodeUserPassword;
        Some (Some (username, Some password), host)
  end.

Definition stringContainsCTLByte (s : string) : bool :=
  negb (all_bytes (fun b => negb ((byte b <? byte " ") || (byte b =? 0x7f))) s).

(** [parse(rawURL, viaRequest)] with [viaRequest = false], as [Parse]
    calls it *)
Definition parse (rawURL : string) : option URL :=
  if stringContainsCTLByte rawURL then None
  else if String.eqb rawURL "*" then
    Some (mkURL "" "" None "" "*" false "" "")
  else
    '(scheme, rest) ← getScheme rawURL;
    let scheme := strings.ToLower scheme in
    let '(rest, force, query) :=
      if strings.HasSuffix rest "?" && (strings.CountByte rest "?" =? 1)%nat
      then (upto rest (len rest - 1), true, EmptyString)
      else let '(r, q, _) := strings.Cut rest "?" in (r, false, q) in
    if negb (strings.HasPrefix rest "/") && negb (String.eqb scheme "")
    then
      (* a rootless path is taken as opaque *)
      Some (mkURL scheme rest None "" "" force query "")
    else if negb (strings.HasPrefix rest "/")
            && strings.Contains (strings.Cut rest "/").1.1 ":"
    then None
    else
      '(user, host, rest) ←
        (if (negb (String.eqb scheme "") || negb (strings.HasPrefix rest "///"))
            && strings.HasPrefix rest "//"
         then
           let authority := from rest 2 in
           let '(authority, rest) :=
             match strings.Index authority "/" with
             | Some i => (upto authority i, from authority i)
             | None => (authority, EmptyString)
             end in
           '(user, host) ← parseAuthority authority;
           Some (user, host, rest)
         else Some (None, EmptyString, rest));
      path ← unescape rest encodePath;
      Some (mkURL scheme "" user host path force query "").

(** [url.Parse(rawURL)] *)
Definition Parse (rawURL : string) : option URL :=
  let '(u, frag, _) := strings.Cut rawURL "#" in
  url ← parse u;
  if String.eqb frag "" then Some url
  else
    frag ← unescape frag encodeFragment;
    Some (mkURL (Scheme url) (Opaque url) (User url) (Host url) (Path url)
                (ForceQuery url) (RawQuery url) frag).

End url.

(** ** Package [regexp]: the compiled patterns

    A pattern is kept as its syntax tree and matched with Brzozowski
    derivatives.  All patterns of [format_checkers.go] are of the form
    [^body$], and Go's [^] and [$] (without the [m] flag) match only at the
    two ends of the text, so [MatchString] holds when the whole string is in
    the language of [body].  Go matches UTF-8 code points where the model
    matches bytes; the two agree on these patterns, whose character classes
    are either sets of ASCII characters or the complement of such a set, which
    every byte of a multi-byte code point belongs to. *)
Module regexp.

(** A character class as [regexp/syntax] keeps it: a list of ranges, here
    with a flag for the complement [[^...]]. *)
Record class : Set := mkClass {
  negated : bool;
  ranges : list (ascii * ascii)
}.

Definition in_class (k : class) (c : ascii) : bool :=
  xorb (negated k) (existsb (fun r => between r.1 r.2 c) (ranges k)).

Inductive re : Set :=
| Fail                (* no string *)
| Eps                 (* the empty string *)
| Class (k : class)   (* one byte of a class *)
| Cat (a b : re)
| Alt (a b : re)
| Star (a : re).

Definition Lit (c : ascii) : re := Class (mkClass false [(c, c)]).
(** [[^c]] *)
Definition Not (c : ascii) : re := Class (mkClass true [(c, c)]).
(** [a?] *)
Definition Opt (a : re) : re := Alt a Eps.
(** [a{n}] *)
Fixpoint Rep (n : nat) (a : re) : re :=
  match n with
  | O => Eps
  | S n' => Cat a (Rep n' a)
  end.
(** [a{0,n}] *)
Fixpoint UpTo (n : nat) (a : re) : re :=
  match n with
  | O => Eps
  | S n' => Opt (Cat a (UpTo n' a))
  end.

Fixpoint ranges_eqb (x y : list (ascii * ascii)) : bool :=
  match x, y with
  | [], [] => true
  | (a, b) :: x', (c, d) :: y' => eqc a c && eqc b d && ranges_eqb x' y'
  | _, _ => false
  end.

Definition class_eqb (x y : class) : bool :=
  Bool.eqb (negated x) (negated y) && ranges_eqb (ranges x) (ranges y).

Fixpoint re_eqb (x y : re) : bool :=
  match x, y with
  | Fail, Fail => true
  | Eps, Eps => true
  | Class k, Class l => class_eqb k l
  | Cat a b, Cat c d => re_eqb a c && re_eqb b d
  | Alt a b, Alt c d => re_eqb a c && re_eqb b d
  | Star a, Star c => re_eqb a c
  | _, _ => false
  end.

Fixpoint nullable (r : re) : bool :=
  match r with
  | Fail => false
  | Eps => true
  | Class _ => false
  | Cat a b => nullable a && nullable b
  | Alt a b => nullable a || nullable b
  | Star _ => true
  end.

(** Concatenation and alternation that drop what matches nothing and keep
    one of two equal alternatives, so that derivatives stay small. *)
Definition cat (a b : re) : re :=
  match a with
  | Fail => Fail
  | Eps => b
  | _ => Cat a b
  end.

Definition alt (a b : re) : re :=
  match a, b with
  | Fail, _ => b
  | _, Fail => a
  | _, _ => if re_eqb a b then a else Alt a b
  end.

Fixpoint deriv (c : ascii) (r : re) : re :=
  match r with
  | Fail => Fail
  | Eps => Fail
  | Class k => if in_class k c then Eps else Fail
  | Cat a b =>
      alt (cat (deriv c a) b) (if nullable a then deriv c b else Fail)
  | Alt a b => alt (deriv c a) (deriv c b)
  | Star a => cat (deriv c a) (Star a)
  end.

Fixpoint matches (r : re) (s : string) : bool :=
  match s with
  | EmptyString => nullable r
  | String c s' => matches (deriv c r) s'
  end.

(** A [*regexp.Regexp] compiled from [^body$] *)
Record Regexp : Set := MustCompile { body : re }.

Definition MatchString (rx : Regexp) (s : string) : bool := matches (body rx) s.

End regexp.

Import regexp.

(** [[a-zA-Z0-9]] *)
Definition alnum : re :=
  Class (mkClass false [("a", "z"); ("A", "Z"); ("0", "9")]%char).

(** [[a-zA-Z0-9\-]] *)
Definition alnumHyphen : re :=
  Class (mkClass false [("a", "z"); ("A", "Z"); ("0", "9"); ("-", "-")]%char).

(** [[a-zA-Z0-9]|[a-zA-Z0-9][a-zA-Z0-9\-]{0,61}[a-zA-Z0-9]] *)
Definition hostLabel : re :=
  Alt alnum (Cat alnum (Cat (UpTo 61 alnumHyphen) alnum)).

(** [^(label)(\.(label))*$] *)
Definition rxHostname : Regexp :=
  MustCompile (Cat hostLabel (Star (Cat (Lit ".") hostLabel))).

(** [^([^{]*({[^}]*})?)*$] *)
Definition rxURITemplate : Regexp :=
  MustCompile
    (Star (Cat (Star (Not "{"))
               (Opt (Cat (Lit "{") (Cat (Star (Not "}")) (Lit "}")))))).

(** The derivatives of [rxURITemplate] after a byte outside an expression
    and after a byte inside one *)
Definition tplOutside : re :=
  Cat (Cat (Star (Not "{"))
           (Opt (Cat (Lit "{") (Cat (Star (Not "}")) (Lit "}")))))
      (body rxURITemplate).

Definition tplInside : re :=
  Cat (Cat (Star (Not "}")) (Lit "}")) (body rxURITemplate).

(** The language of [rxURITemplate] as a scan from the left: an opening
    brace starts an expression, the next closing brace ends it, and the
    string has to end outside an expression. *)
Fixpoint scanBraces (inside : bool) (s : string) : bool :=
  match s with
  | EmptyString => negb inside
  | String c s' =>
      if inside then scanBraces (negb (eqc c "}")) s'
      else scanBraces (eqc c "{") s'
  end.

(** [[a-f0-9]] *)
Definition hexLower : re := Class (mkClass false [("a", "f"); ("0", "9")]%char).

(** [^[a-f0-9]{8}-[a-f0-9]{4}-[a-f0-9]{4}-[a-f0-9]{4}-[a-f0-9]{12}$] *)
Definition rxUUID : Regexp :=
  MustCompile
    (Cat (Rep 8 hexLower)
      (Cat (Lit "-") (Cat (Rep 4 hexLower)
        (Cat (Lit "-") (Cat (Rep 4 hexLower)
          (Cat (Lit "-") (Cat (Rep 4 hexLower)
            (Cat (Lit "-") (Rep 12 hexLower))))))))).

(** [(?:/T)*], with [T] the pattern [(?:[^~/]|~0|~1)*] of one reference
    token *)
Definition jsonPointerBody : re :=
  Star (Cat (Lit "/")
            (Star (Alt (Class (mkClass true [("~", "~"); ("/", "/")]%char))
                       (Alt (Cat (Lit "~") (Lit "0")) (Cat (Lit "~") (Lit "1")))))).

(** [^(?:/T)*$] *)
Definition rxJSONPointer : Regexp := MustCompile jsonPointerBody.

(** A non-negative integer without leading zeros ([0] or [[1-9][0-9]*]),
    followed by [#] or by a JSON pointer as in [rxJSONPointer] *)
Definition rxRelJSONPointer : Regexp :=
  MustCompile
    (Cat (Alt (Lit "0")
              (Cat (Class (mkClass false [("1", "9")]%char))
                   (Star (Class (mkClass false [("0", "9")]%char)))))
         (Alt (Lit "#") jsonPointerBody)).

(** ** The built-in checkers *)

(** The two parsers of the Go library that the checkers use and that are
    not modelled here: [mail.ParseAddress] (RFC 5322) and [regexp.Compile]
    (RE2 syntax).  Each is given as the test [err == nil]. *)
Class Primitives : Type := {
  mail_ParseAddress : string -> bool;
  regexp_Compile : string -> bool
}.

Inductive EmailFormatChecker : Set := mkEmailFormatChecker.
Inductive IPV4FormatChecker : Set := mkIPV4FormatChecker.
Inductive IPV6FormatChecker : Set := mkIPV6FormatChecker.
Inductive DateTimeFormatChecker : Set := mkDateTimeFormatChecker.
Inductive DateFormatChecker : Set := mkDateFormatChecker.
Inductive TimeFormatChecker : Set := mkTimeFormatChecker.
Inductive URIFormatChecker : Set := mkURIFormatChecker.
Inductive URIReferenceFormatChecker : Set := mkURIReferenceFormatChecker.
Inductive URITemplateFormatChecker : Set := mkURITemplateFormatChecker.
Inductive HostnameFormatChecker : Set := mkHostnameFormatChecker.
(** [UUIDFormatChecker] embeds a [*baseFormatCheckerWithError], which its
    [IsFormat] does not read. *)
Inductive UUIDFormatChecker : Set := mkUUIDFormatChecker.
Inductive RegexFormatChecker : Set := mkRegexFormatChecker.
Inductive JSONPointerFormatChecker : Set := mkJSONPointerFormatChecker.
Inductive RelativeJSONPointerFormatChecker : Set := mkRelativeJSONPointerFormatChecker.

Definition is_nil {A} (o : option A) : bool :=
  match o with Some _ => false | None => true end.

Definition backslash : string := "\".

Section Checkers.

Context `{Primitives}.

#[export] Instance EmailFormatChecker_IsFormat : FormatChecker EmailFormatChecker :=
  fun _ input =>
    match as_string input with
    | None => false
    | Some asString => mail_ParseAddress asString
    end.

#[export] Instance IPV4FormatChecker_IsFormat : FormatChecker IPV4FormatChecker :=
  fun _ input =>
    match as_string input with
    | None => false
    | Some asString =>
        let ip := net.ParseIP asString in
        negb (is_nil ip) && strings.Contains asString "."
    end.

#[export] Instance IPV6FormatChecker_IsFormat : FormatChecker IPV6FormatChecker :=
  fun _ input =>
    match as_string input with
    | None => false
    | Some asString =>
        let ip := net.ParseIP asString in
        negb (is_nil ip) && strings.Contains asString ":"
    end.

#[export] Instance DateTimeFormatChecker_IsFormat : FormatChecker DateTimeFormatChecker :=
  fun _ input =>
    match as_string input with
    | None => false
    | Some asString =>
        let formats :=
          [time.layoutTime; time.layoutTimeZone; time.layoutDate;
           time.RFC3339; time.RFC3339Nano] in
        existsb (fun format => negb (is_nil (time.Parse format asString))) formats
    end.

#[export] Instance DateFormatChecker_IsFormat : FormatChecker DateFormatChecker :=
  fun _ input =>
    match as_string input with
    | None => false
    | Some asString => negb (is_nil (time.Parse time.layoutDate asString))
    end.

#[export] Instance TimeFormatChecker_IsFormat : FormatChecker TimeFormatChecker :=
  fun _ input =>
    match as_string input with
    | None => false
    | Some asString =>
        if negb (is_nil (time.Parse time.layoutTimeZone asString)) then true
        else negb (is_nil (time.Parse time.layoutTime asString))
    end.

#[export] Instance URIFormatChecker_IsFormat : FormatChecker URIFormatChecker :=
  fun _ input =>
    match as_string input with
    | None => false
    | Some asString =>
        match url.Parse asString with
        | None => false
        | Some u =>
            if String.eqb (url.Scheme u) "" then false
            else negb (strings.Contains asString backslash)
        end
    end.

#[export] Instance URIReferenceFormatChecker_IsFormat
  : FormatChecker URIReferenceFormatChecker :=
  fun _ input =>
    match as_string input with
    | None => false
    | Some asString =>
        negb (is_nil (url.Parse asString))
        && negb (strings.Contains asString backslash)
    end.

#[export] Instance URITemplateFormatChecker_IsFormat
  : FormatChecker URITemplateFormatChecker :=
  fun _ input =>
    match as_string input with
    | None => false
    | Some asString =>
        match url.Parse asString with
        | None => false
        | Some u =>
            if strings.Contains asString backslash then false
            else MatchString rxURITemplate (url.Path u)
        end
    end.

#[export] Instance HostnameFormatChecker_IsFormat : FormatChecker HostnameFormatChecker :=
  fun _ input =>
    match as_string input with
    | None => false
    | Some asString =>
        MatchString rxHostname asString && (len asString <? 256)%nat
    end.

(** In the branch for a non-string the Go code builds a
    [DoesNotMatchFormatError] in a local variable and drops it. *)
#[export] Instance UUIDFormatChecker_IsFormat : FormatChecker UUIDFormatChecker :=
  fun _ input =>
    match as_string input with
    | None => false
    | Some asString =>
        let m := MatchString rxUUID asString in
        if negb m then false else true
    end.

#[export] Instance RegexFormatChecker_IsFormat : FormatChecker RegexFormatChecker :=
  fun _ input =>
    match as_string input with
    | None => false
    | Some asString =>
        if String.eqb asString "" then true
        else regexp_Compile asString
    end.

#[export] Instance JSONPointerFormatChecker_IsFormat
  : FormatChecker JSONPointerFormatChecker :=
  fun _ input =>
    match as_string input with
    | None => false
    | Some asString => MatchString rxJSONPointer asString
    end.

#[export] Instance RelativeJSONPointerFormatChecker_IsFormat
  : FormatChecker RelativeJSONPointerFormatChecker :=
  fun _ input =>
    match as_string input with
    | None => false
    | Some asString => MatchString rxRelJSONPointer asString
    end.

(** The bindings of the map literal of [FormatCheckers] *)
Definition builtin : list (string * FormatCheckerWithError) :=
  [ ("date", convertToNewChecker mkDateFormatChecker);
    ("time", convertToNewChecker mkTimeFormatChecker);
    ("date-time", convertToNewChecker mkDateTimeFormatChecker);
    ("hostname", convertToNewChecker mkHostnameFormatChecker);
    ("email", convertToNewChecker mkEmailFormatChecker);
    ("idn-email", convertToNewChecker mkEmailFormatChecker);
    ("ipv4", convertToNewChecker mkIPV4FormatChecker);
    ("ipv6", convertToNewChecker mkIPV6FormatChecker);
    ("uri", convertToNewChecker mkURIFormatChecker);
    ("uri-reference", convertToNewChecker mkURIReferenceFormatChecker);
    ("iri", convertToNewChecker mkURIFormatChecker);
    ("iri-reference", convertToNewChecker mkURIReferenceFormatChecker);
    ("uri-template", convertToNewChecker mkURITemplateFormatChecker);
    ("uuid", convertToNewChecker mkUUIDFormatChecker);
    ("regex", convertToNewChecker mkRegexFormatChecker);
    ("json-pointer", convertToNewChecker mkJSONPointerFormatChecker);
    ("relative-json-pointer", convertToNewChecker mkRelativeJSONPointerFormatChecker) ].

(** [FormatCheckers]: the package-level registry *)
Definition FormatCheckers : FormatCheckerChain :=
  {| formatters := list_to_map builtin |}.

End Checkers.

(** ** Package [fmt]: [fmt.Sprintf]

    [Sprintf] never fails: an operand that does not fit its verb, a missing
    operand and operands left over are reported inside the output.  The
    model is for plain formats, those where every [%] is directly followed
    by one of the verbs [s], [d], [v], [T] or by a second [%] (see [plain]);
    the templates of [locales.go] are plain.  An operand is a Go string, an
    int, [nil], or a value of another type, which is given by the name of
    its type and by what [printArg] writes for it under each verb. *)
Module fmt.

Inductive arg : Type :=
| Str (s : string)
| Int (n : Z)
| Nil
| Other (type : string) (print : ascii -> string).

(** [reflect.TypeOf(arg).String()] *)
Definition typeString (a : arg) : string :=
  match a with
  | Str _ => "string"
  | Int _ => "int"
  | Nil => "<nil>"
  | Other type _ => type
  end.

Definition decimal (n : Z) : string := NilZero.string_of_int (Z.to_int n).

(** The operand under [%v] *)
Definition verbV (a : arg) : string :=
  match a with
  | Str s => s
  | Int n => decimal n
  | Nil => "<nil>"
  | Other _ print => print "v"%char
  end.

(** An operand inside an error report: [type=value], or [<nil>] *)
Definition operand (a : arg) : string :=
  match a with
  | Nil => "<nil>"
  | _ => typeString a +:+ "=" +:+ verbV a
  end.

(** [badVerb]: [%!verb(type=value)] *)
Definition badVerb (verb : ascii) (a : arg) : string :=
  "%!" +:+ String verb ("(" +:+ operand a +:+ ")").

Definition printArg (a : arg) (verb : ascii) : string :=
  match a with
  | Nil => if eqc verb "T" || eqc verb "v" then "<nil>" else badVerb verb a
  | Str s =>
      if eqc verb "T" then typeString a
      else if eqc verb "v" || eqc verb "s" then s else badVerb verb a
  | Int n =>
      if eqc verb "T" then typeString a
      else if eqc verb "v" || eqc verb "d" then decimal n else badVerb verb a
  | Other type print => if eqc verb "T" then type else print verb
  end.

(** [missingArg]: [%!verb(MISSING)] *)
Definition missingArg (verb : ascii) : string :=
  "%!" +:+ String verb "(MISSING)".

Fixpoint join (l : list string) : string :=
  match l with
  | [] => ""
  | [x] => x
  | x :: l' => x +:+ ", " +:+ join l'
  end.

(** The operands left when the format is used up: [%!(EXTRA type=value, ...)] *)
Definition extra (a : list arg) : string :=
  match a with
  | [] => ""
  | _ => "%!(EXTRA " +:+ join (map operand a) +:+ ")"
  end.

(** [doPrintf]: [a] holds the operands from [argNum] on. *)
Fixpoint doPrintf (format : string) (a : list arg) : string :=
  match format with
  | EmptyString => extra a
  | String c format1 =>
      if eqc c "%" then
        match format1 with
        | EmptyString => "%!(NOVERB)" +:+ extra a
        | String verb format2 =>
            if eqc verb "%" then String "%" (doPrintf format2 a)
            else
              match a with
              | [] => missingArg verb +:+ doPrintf format2 []
              | x :: a' => printArg x verb +:+ doPrintf format2 a'
              end
        end
      else String c (doPrintf format1 a)
  end.

Definition Sprintf (format : string) (a : list arg) : string := doPrintf format a.

(** Number of operands that [format] asks for *)
Fixpoint verbs (format : string) : nat :=
  match format with
  | EmptyString => O
  | String c format1 =>
      if eqc c "%" then
        match format1 with
        | EmptyString => O
        | String verb format2 =>
            if eqc verb "%" then verbs format2 else S (verbs format2)
        end
      else verbs format1
  end.

(** The formats that the model is for *)
Fixpoint plain (format : string) : bool :=
  match format with
  | EmptyString => true
  | String c format1 =>
      if eqc c "%" then
        match format1 with
        | EmptyString => false
        | String verb format2 =>
            existsb (eqc verb) ["s"; "d"; "v"; "T"; "%"]%char && plain format2
        end
      else plain format1
  end.

End fmt.

(** ** [locales.go]: constants and message makers *)

Definition dq : string := String url.dquote "".

Definition STRING_NUMBER : string := "number".
Definition STRING_ARRAY_OF_STRINGS : string := "array of strings".
Definition STRING_ARRAY_OF_SCHEMAS : string := "array of schemas".
Definition STRING_SCHEMA : string := "schema".
Definition STRING_SCHEMA_OR_ARRAY_OF_STRINGS : string := "schema or array of strings".
Definition STRING_PROPERTIES : string := "properties".
Definition STRING_DEPENDENCY : string := "dependency".
Definition STRING_PROPERTY : string := "property".
Definition STRING_CONTEXT_ROOT : string := "(root)".
Definition STRING_ROOT_SCHEMA_PROPERTY : string := "(root)".
Definition STRING_UNDEFINED : string := "undefined".
Definition RESULT_ERROR_FORMAT : string := "%s : %s, given %s".
Definition ARRAY_MIN_ITEMS : string := "ARRAY_MIN_ITEMS".
Definition ARRAY_MAX_ITEMS : string := "ARRAY_MAX_ITEMS".
Definition ARRAY_MIN_PROPERTIES : string := "ARRAY_MIN_PROPERTIES".
Definition ARRAY_MAX_PROPERTIES : string := "ARRAY_MAX_PROPERTIES".
Definition ARRAY_NO_ADDITIONAL_ITEM : string := "ARRAY_NO_ADDITIONAL_ITEM".
Definition ADDITIONAL_PROPERTY_NOT_ALLOWED : string := "ADDITIONAL_PROPERTY_NOT_ALLOWED".
Definition DOES_NOT_MATCH_PATTERN : string := "DOES_NOT_MATCH_PATTERN".
Definition HAS_DEPENDENCY_ON : string := "HAS_DEPENDENCY_ON".
Definition MULTIPLE_OF : string := "MULTIPLE_OF".
Definition GET_HTTP_BAD_STATUS : string := "GET_HTTP_BAD_STATUS".
Definition INVALID_PATTERN_PROPERTY : string := "INVALID_PATTERN_PROPERTY".
Definition INTERNAL : string := "INTERNAL".
Definition INVALID_REGEX_PATTERN : string := "INVALID_REGEX_PATTERN".
Definition MUST_MATCH_ONE_ENUM_VALUES : string := "MUST_MATCH_ONE_ENUM_VALUES".
Definition NUMBER_MUST_BE_LOWER_OR_EQUAL : string := "NUMBER_MUST_BE_LOWER_OR_EQUAL".
Definition NUMBER_MUST_BE_LOWER : string := "NUMBER_MUST_BE_LOWER".
Definition NUMBER_MUST_BE_GREATER_OR_EQUAL : string := "NUMBER_MUST_BE_GREATER_OR_EQUAL".
Definition NUMBER_MUST_BE_GREATER : string := "NUMBER_MUST_BE_GREATER".
Definition NUMBER_MUST_VALIDATE_ALLOF : string := "NUMBER_MUST_VALIDATE_ALLOF".
Definition NUMBER_MUST_VALIDATE_ONEOF : string := "NUMBER_MUST_VALIDATE_ONEOF".
Definition NUMBER_MUST_VALIDATE_ANYOF : string := "NUMBER_MUST_VALIDATE_ANYOF".
Definition NUMBER_MUST_VALIDATE_NOT : string := "NUMBER_MUST_VALIDATE_NOT".
Definition REFERENCE_X_MUST_BE_CANONICAL : string := "REFERENCE_X_MUST_BE_CANONICAL".
Definition STRING_LENGTH_MUST_BE_GREATER_OR_EQUAL : string := "STRING_LENGTH_MUST_BE_GREATER_OR_EQUAL".
Definition STRING_LENGTH_MUST_BE_LOWER_OR_EQUAL : string := "STRING_LENGTH_MUST_BE_LOWER_OR_EQUAL".
Definition MUST_BE_OF_TYPE_X : string := "MUST_BE_OF_TYPE_X".
Definition NEW_SCHEMA_DOCUMENT_INVALID_ARGUMENT : string := "NEW_SCHEMA_DOCUMENT_INVALID_ARGUMENT".
Definition X_IS_NOT_A_VALID_TYPE : string := "X_IS_NOT_A_VALID_TYPE".
Definition X_TYPE_IS_DUPLICATED : string := "X_TYPE_IS_DUPLICATED".
Definition X_MUST_BE_OF_TYPE_Y : string := "X_MUST_BE_OF_TYPE_Y".
Definition X_MUST_BE_A_Y : string := "X_MUST_BE_A_Y".
Definition X_MUST_BE_AN_Y : string := "X_MUST_BE_AN_Y".
Definition X_IS_MISSING_AND_REQUIRED : string := "X_IS_MISSING_AND_REQUIRED".
Definition X_MUST_BE_VALID_REGEX : string := "X_MUST_BE_VALID_REGEX".
Definition X_MUST_BE_GREATER_OR_TO_0 : string := "X_MUST_BE_GREATER_OR_TO_0".
Definition X_CANNOT_BE_GREATER_THAN_Y : string := "X_CANNOT_BE_GREATER_THAN_Y".
Definition X_MUST_BE_STRICTLY_GREATER_THAN_0 : string := "X_MUST_BE_STRICTLY_GREATER_THAN_0".
Definition X_CANNOT_BE_USED_WITHOUT_Y : string := "X_CANNOT_BE_USED_WITHOUT_Y".
Definition X_ITEMS_MUST_BE_UNIQUE : string := "X_ITEMS_MUST_BE_UNIQUE".
Definition X_ITEMS_MUST_BE_TYPE_Y : string := "X_ITEMS_MUST_BE_TYPE_Y".

Record Message : Set := mkMessage {
  Code : string;        (* A code representing the error reason for use by the client *)
  Description : string  (* The json schema English MessageMaker describing the problem *)
}.

(** [Message.Error] produces [errors.New(m.Description)]; the error is
    given by its text. *)
Definition Message_Error (m : Message) : string := Description m.

(** [messageMaker] is a closure holding error specific code and format to
    product a [Message] *)
Definition messageMaker : Type := list fmt.arg -> Message.

Definition newMessageMaker (code format : string) : messageMaker :=
  fun args =>
    let description := fmt.Sprintf format args in
    {| Code := code; Description := description |}.

Definition ERROR_MESSAGE_X_IS_NOT_A_VALID_TYPE : messageMaker :=
  newMessageMaker X_IS_NOT_A_VALID_TYPE "%s is not a valid type".

Definition ERROR_MESSAGE_X_TYPE_IS_DUPLICATED : messageMaker :=
  newMessageMaker X_TYPE_IS_DUPLICATED "%s type is duplicated".

Definition ERROR_MESSAGE_X_MUST_BE_OF_TYPE_Y : messageMaker :=
  newMessageMaker X_MUST_BE_OF_TYPE_Y "%s must be of type %s".

Definition ERROR_MESSAGE_X_MUST_BE_A_Y : messageMaker :=
  newMessageMaker X_MUST_BE_A_Y "%s must be of a %s".

Definition ERROR_MESSAGE_X_MUST_BE_AN_Y : messageMaker :=
  newMessageMaker X_MUST_BE_AN_Y "%s must be of an %s".

Definition ERROR_MESSAGE_X_IS_MISSING_AND_REQUIRED : messageMaker :=
  newMessageMaker X_IS_MISSING_AND_REQUIRED "%s is missing and required".

Definition ERROR_MESSAGE_MUST_BE_OF_TYPE_X : messageMaker :=
  newMessageMaker MUST_BE_OF_TYPE_X "must be of type %s".

Definition ERROR_MESSAGE_X_ITEMS_MUST_BE_UNIQUE : messageMaker :=
  newMessageMaker X_ITEMS_MUST_BE_UNIQUE "%s items must be unique".

Definition ERROR_MESSAGE_X_ITEMS_MUST_BE_TYPE_Y : messageMaker :=
  newMessageMaker X_ITEMS_MUST_BE_TYPE_Y "%s items must be %s".

Definition ERROR_MESSAGE_DOES_NOT_MATCH_PATTERN : messageMaker :=
  newMessageMaker DOES_NOT_MATCH_PATTERN "does not match pattern '%s'".

Definition ERROR_MESSAGE_MUST_MATCH_ONE_ENUM_VALUES : messageMaker :=
  newMessageMaker MUST_MATCH_ONE_ENUM_VALUES "must match one of the enum values [%s]".

Definition ERROR_MESSAGE_STRING_LENGTH_MUST_BE_GREATER_OR_EQUAL : messageMaker :=
  newMessageMaker STRING_LENGTH_MUST_BE_GREATER_OR_EQUAL "string length must be greater or equal to %d".

Definition ERROR_MESSAGE_STRING_LENGTH_MUST_BE_LOWER_OR_EQUAL : messageMaker :=
  newMessageMaker STRING_LENGTH_MUST_BE_LOWER_OR_EQUAL "string length must be lower or equal to %d".

Definition ERROR_MESSAGE_NUMBER_MUST_BE_LOWER_OR_EQUAL : messageMaker :=
  newMessageMaker NUMBER_MUST_BE_LOWER_OR_EQUAL "must be lower than or equal to %s".

Definition ERROR_MESSAGE_NUMBER_MUST_BE_LOWER : messageMaker :=
  newMessageMaker NUMBER_MUST_BE_LOWER "must be lower than %s".

Definition ERROR_MESSAGE_NUMBER_MUST_BE_GREATER_OR_EQUAL : messageMaker :=
  newMessageMaker NUMBER_MUST_BE_GREATER_OR_EQUAL "must be greater than or equal to %s".

Definition ERROR_MESSAGE_NUMBER_MUST_BE_GREATER : messageMaker :=
  newMessageMaker NUMBER_MUST_BE_GREATER "must be greater than %s".

Definition ERROR_MESSAGE_NUMBER_MUST_VALIDATE_ALLOF : messageMaker :=
  newMessageMaker NUMBER_MUST_VALIDATE_ALLOF "must validate all the schemas (allOf)".

Definition ERROR_MESSAGE_NUMBER_MUST_VALIDATE_ONEOF : messageMaker :=
  newMessageMaker NUMBER_MUST_VALIDATE_ONEOF "must validate one and only one schema (oneOf)".

Definition ERROR_MESSAGE_NUMBER_MUST_VALIDATE_ANYOF : messageMaker :=
  newMessageMaker NUMBER_MUST_VALIDATE_ANYOF "must validate at least one schema (anyOf)".

Definition ERROR_MESSAGE_NUMBER_MUST_VALIDATE_NOT : messageMaker :=
  newMessageMaker NUMBER_MUST_VALIDATE_NOT "must not validate the schema (not)".

Definition ERROR_MESSAGE_ARRAY_MIN_ITEMS : messageMaker :=
  newMessageMaker ARRAY_MIN_ITEMS "array must have at least %d items".

Definition ERROR_MESSAGE_ARRAY_MAX_ITEMS : messageMaker :=
  newMessageMaker ARRAY_MAX_ITEMS "array must have at the most %d items".

Definition ERROR_MESSAGE_ARRAY_MIN_PROPERTIES : messageMaker :=
  newMessageMaker ARRAY_MIN_PROPERTIES "must have at least %d properties".

Definition ERROR_MESSAGE_ARRAY_MAX_PROPERTIES : messageMaker :=
  newMessageMaker ARRAY_MAX_PROPERTIES "must have at the most %d properties".

Definition ERROR_MESSAGE_HAS_DEPENDENCY_ON : messageMaker :=
  newMessageMaker HAS_DEPENDENCY_ON "has a dependency on %s".

Definition ERROR_MESSAGE_MULTIPLE_OF : messageMaker :=
  newMessageMaker MULTIPLE_OF "must be a multiple of %s".

Definition ERROR_MESSAGE_ARRAY_NO_ADDITIONAL_ITEM : messageMaker :=
  newMessageMaker ARRAY_NO_ADDITIONAL_ITEM "no additional item allowed on array".

Definition ERROR_MESSAGE_ADDITIONAL_PROPERTY_NOT_ALLOWED : messageMaker :=
  newMessageMaker ADDITIONAL_PROPERTY_NOT_ALLOWED ("additional property " +:+ dq +:+ "%s" +:+ dq +:+ " is not allowed").

Definition ERROR_MESSAGE_INVALID_PATTERN_PROPERTY : messageMaker :=
  newMessageMaker INVALID_PATTERN_PROPERTY ("property " +:+ dq +:+ "%s" +:+ dq +:+ " does not match pattern %s").

Definition ERROR_MESSAGE_INTERNAL : messageMaker :=
  newMessageMaker INTERNAL "internal error %s".

Definition ERROR_MESSAGE_GET_HTTP_BAD_STATUS : messageMaker :=
  newMessageMaker GET_HTTP_BAD_STATUS "Could not read schema from HTTP, response status is %d".

Definition ERROR_MESSAGE_NEW_SCHEMA_DOCUMENT_INVALID_ARGUMENT : messageMaker :=
  newMessageMaker NEW_SCHEMA_DOCUMENT_INVALID_ARGUMENT "Invalid argument, must be a JSON string, a JSON reference string or a map[string]interface{}".

Definition ERROR_MESSAGE_INVALID_REGEX_PATTERN : messageMaker :=
  newMessageMaker INVALID_REGEX_PATTERN "Invalid regex pattern '%s'".

Definition ERROR_MESSAGE_X_MUST_BE_VALID_REGEX : messageMaker :=
  newMessageMaker X_MUST_BE_VALID_REGEX "%s must be a valid regex".

Definition ERROR_MESSAGE_X_MUST_BE_GREATER_OR_TO_0 : messageMaker :=
  newMessageMaker X_MUST_BE_GREATER_OR_TO_0 "%s must be greater than or equal to 0".

Definition ERROR_MESSAGE_X_CANNOT_BE_GREATER_THAN_Y : messageMaker :=
  newMessageMaker X_CANNOT_BE_GREATER_THAN_Y "%s cannot be greater than %s".

Definition ERROR_MESSAGE_X_MUST_BE_STRICTLY_GREATER_THAN_0 : messageMaker :=
  newMessageMaker X_MUST_BE_STRICTLY_GREATER_THAN_0 "%s must be strictly greater than 0".

Definition ERROR_MESSAGE_X_CANNOT_BE_USED_WITHOUT_Y : messageMaker :=
  newMessageMaker X_CANNOT_BE_USED_WITHOUT_Y "%s cannot be used without %s".

Definition ERROR_MESSAGE_REFERENCE_X_MUST_BE_CANONICAL : messageMaker :=
  newMessageMaker REFERENCE_X_MUST_BE_CANONICAL "Reference %s must be canonical".

(** The bindings above: every code with its format and its maker *)
Definition messageMakers : list (string * string * messageMaker) :=
  [ (X_IS_NOT_A_VALID_TYPE, "%s is not a valid type",
     ERROR_MESSAGE_X_IS_NOT_A_VALID_TYPE);
    (X_TYPE_IS_DUPLICATED, "%s type is duplicated",
     ERROR_MESSAGE_X_TYPE_IS_DUPLICATED);
    (X_MUST_BE_OF_TYPE_Y, "%s must be of type %s",
     ERROR_MESSAGE_X_MUST_BE_OF_TYPE_Y);
    (X_MUST_BE_A_Y, "%s must be of a %s",
     ERROR_MESSAGE_X_MUST_BE_A_Y);
    (X_MUST_BE_AN_Y, "%s must be of an %s",
     ERROR_MESSAGE_X_MUST_BE_AN_Y);
    (X_IS_MISSING_AND_REQUIRED, "%s is missing and required",
     ERROR_MESSAGE_X_IS_MISSING_AND_REQUIRED);
    (MUST_BE_OF_TYPE_X, "must be of type %s",
     ERROR_MESSAGE_MUST_BE_OF_TYPE_X);
    (X_ITEMS_MUST_BE_UNIQUE, "%s items must be unique",
     ERROR_MESSAGE_X_ITEMS_MUST_BE_UNIQUE);
    (X_ITEMS_MUST_BE_TYPE_Y, "%s items must be %s",
     ERROR_MESSAGE_X_ITEMS_MUST_BE_TYPE_Y);
    (DOES_NOT_MATCH_PATTERN, "does not match pattern '%s'",
     ERROR_MESSAGE_DOES_NOT_MATCH_PATTERN);
    (MUST_MATCH_ONE_ENUM_VALUES, "must match one of the enum values [%s]",
     ERROR_MESSAGE_MUST_MATCH_ONE_ENUM_VALUES);
    (STRING_LENGTH_MUST_BE_GREATER_OR_EQUAL, "string length must be greater or equal to %d",
     ERROR_MESSAGE_STRING_LENGTH_MUST_BE_GREATER_OR_EQUAL);
    (STRING_LENGTH_MUST_BE_LOWER_OR_EQUAL, "string length must be lower or equal to %d",
     ERROR_MESSAGE_STRING_LENGTH_MUST_BE_LOWER_OR_EQUAL);
    (NUMBER_MUST_BE_LOWER_OR_EQUAL, "must be lower than or equal to %s",
     ERROR_MESSAGE_NUMBER_MUST_BE_LOWER_OR_EQUAL);
    (NUMBER_MUST_BE_LOWER, "must be lower than %s",
     ERROR_MESSAGE_NUMBER_MUST_BE_LOWER);
    (NUMBER_MUST_BE_GREATER_OR_EQUAL, "must be greater than or equal to %s",
     ERROR_MESSAGE_NUMBER_MUST_BE_GREATER_OR_EQUAL);
    (NUMBER_MUST_BE_GREATER, "must be greater than %s",
     ERROR_MESSAGE_NUMBER_MUST_BE_GREATER);
    (NUMBER_MUST_VALIDATE_ALLOF, "must validate all the schemas (allOf)",
     ERROR_MESSAGE_NUMBER_MUST_VALIDATE_ALLOF);
    (NUMBER_MUST_VALIDATE_ONEOF, "must validate one and only one schema (oneOf)",
     ERROR_MESSAGE_NUMBER_MUST_VALIDATE_ONEOF);
    (NUMBER_MUST_VALIDATE_ANYOF, "must validate at least one schema (anyOf)",
     ERROR_MESSAGE_NUMBER_MUST_VALIDATE_ANYOF);
    (NUMBER_MUST_VALIDATE_NOT, "must not validate the schema (not)",
     ERROR_MESSAGE_NUMBER_MUST_VALIDATE_NOT);
    (ARRAY_MIN_ITEMS, "array must have at least %d items",
     ERROR_MESSAGE_ARRAY_MIN_ITEMS);
    (ARRAY_MAX_ITEMS, "array must have at the most %d items",
     ERROR_MESSAGE_ARRAY_MAX_ITEMS);
    (ARRAY_MIN_PROPERTIES, "must have at least %d properties",
     ERROR_MESSAGE_ARRAY_MIN_PROPERTIES);
    (ARRAY_MAX_PROPERTIES, "must have at the most %d properties",
     ERROR_MESSAGE_ARRAY_MAX_PROPERTIES);
    (HAS_DEPENDENCY_ON, "has a dependency on %s",
     ERROR_MESSAGE_HAS_DEPENDENCY_ON);
    (MULTIPLE_OF, "must be a multiple of %s",
     ERROR_MESSAGE_MULTIPLE_OF);
    (ARRAY_NO_ADDITIONAL_ITEM, "no additional item allowed on array",
     ERROR_MESSAGE_ARRAY_NO_ADDITIONAL_ITEM);
    (ADDITIONAL_PROPERTY_NOT_ALLOWED, ("additional property " +:+ dq +:+ "%s" +:+ dq +:+ " is not allowed"),
     ERROR_MESSAGE_ADDITIONAL_PROPERTY_NOT_ALLOWED);
    (INVALID_PATTERN_PROPERTY, ("property " +:+ dq +:+ "%s" +:+ dq +:+ " does not match pattern %s"),
     ERROR_MESSAGE_INVALID_PATTERN_PROPERTY);
    (INTERNAL, "internal error %s",
     ERROR_MESSAGE_INTERNAL);
    (GET_HTTP_BAD_STATUS, "Could not read schema from HTTP, response status is %d",
     ERROR_MESSAGE_GET_HTTP_BAD_STATUS);
    (NEW_SCHEMA_DOCUMENT_INVALID_ARGUMENT, "Invalid argument, must be a JSON string, a JSON reference string or a map[string]interface{}",
     ERROR_MESSAGE_NEW_SCHEMA_DOCUMENT_INVALID_ARGUMENT);
    (INVALID_REGEX_PATTERN, "Invalid regex pattern '%s'",
     ERROR_MESSAGE_INVALID_REGEX_PATTERN);
    (X_MUST_BE_VALID_REGEX, "%s must be a valid regex",
     ERROR_MESSAGE_X_MUST_BE_VALID_REGEX);
    (X_MUST_BE_GREATER_OR_TO_0, "%s must be greater than or equal to 0",
     ERROR_MESSAGE_X_MUST_BE_GREATER_OR_TO_0);
    (X_CANNOT_BE_GREATER_THAN_Y, "%s cannot be greater than %s",
     ERROR_MESSAGE_X_CANNOT_BE_GREATER_THAN_Y);
    (X_MUST_BE_STRICTLY_GREATER_THAN_0, "%s must be strictly greater than 0",
     ERROR_MESSAGE_X_MUST_BE_STRICTLY_GREATER_THAN_0);
    (X_CANNOT_BE_USED_WITHOUT_Y, "%s cannot be used without %s",
     ERROR_MESSAGE_X_CANNOT_BE_USED_WITHOUT_Y);
    (REFERENCE_X_MUST_BE_CANONICAL, "Reference %s must be canonical",
     ERROR_MESSAGE_REFERENCE_X_MUST_BE_CANONICAL) ].

(** ** Specifications

    The definitions of this section follow the wording of the
    specification and not the code; the theorems compare them with the
    checkers. *)

(** An instance of [Primitives] for running the checkers that do not call
    the two parsers: both parsers refuse every string. *)
Definition refusing : Primitives :=
  {| mail_ParseAddress := fun _ => false; regexp_Compile := fun _ => false |}.

Definition is_string (v : value) : bool :=
  match v with
  | VString _ => true
  | _ => false
  end.

(** Every built-in checker answers [false] on [v]. *)
Definition rejects_all_checkers (P : Primitives) (v : value) : Prop :=
  IsFormat mkEmailFormatChecker v = false
  /\ IsFormat mkIPV4FormatChecker v = false
  /\ IsFormat mkIPV6FormatChecker v = false
  /\ IsFormat mkDateTimeFormatChecker v = false
  /\ IsFormat mkDateFormatChecker v = false
  /\ IsFormat mkTimeFormatChecker v = false
  /\ IsFormat mkURIFormatChecker v = false
  /\ IsFormat mkURIReferenceFormatChecker v = false
  /\ IsFormat mkURITemplateFormatChecker v = false
  /\ IsFormat mkHostnameFormatChecker v = false
  /\ IsFormat mkUUIDFormatChecker v = false
  /\ IsFormat mkRegexFormatChecker v = false
  /\ IsFormat mkJSONPointerFormatChecker v = false
  /\ IsFormat mkRelativeJSONPointerFormatChecker v = false.

(** [s] has an occurrence of the byte [c]. *)
Definition has_byte (c : ascii) (s : string) : Prop :=
  exists pre post : string, s = pre +:+ String c post.

Module Spec.

Local Open Scope Z_scope.

(** The character of the decimal digit [d] *)
Definition digit_char (d : Z) : ascii := ascii_of_N (Z.to_N (48 + d)).

Definition is_digit (d : Z) : Prop := 0 <= d < 10.

Definition leap_year (y : Z) : bool :=
  (y mod 4 =? 0) && (negb (y mod 100 =? 0) || (y mod 400 =? 0)).

Definition days_in_month (y m : Z) : Z :=
  match m with
  | 1 | 3 | 5 | 7 | 8 | 10 | 12 => 31
  | 4 | 6 | 9 | 11 => 30
  | 2 => if leap_year y then 29 else 28
  | _ => 0
  end.

(** [YYYY-MM-DD] with a month of the year and a day of that month *)
Inductive full_date : string -> Prop :=
| FullDate (y1 y2 y3 y4 m1 m2 d1 d2 : Z) :
    is_digit y1 -> is_digit y2 -> is_digit y3 -> is_digit y4 ->
    is_digit m1 -> is_digit m2 -> is_digit d1 -> is_digit d2 ->
    1 <= 10 * m1 + m2 <= 12 ->
    1 <= 10 * d1 + d2
      <= days_in_month (1000 * y1 + 100 * y2 + 10 * y3 + y4) (10 * m1 + m2) ->
    full_date
      (String (digit_char y1) (String (digit_char y2)
        (String (digit_char y3) (String (digit_char y4)
          (String "-" (String (digit_char m1) (String (digit_char m2)
            (String "-" (String (digit_char d1) (String (digit_char d2)
              EmptyString)))))))))).

(** A left-to-right scan for balanced, non-nested [{ ... }] expressions:
    outside an expression a closing brace is an error, inside one an
    opening brace is, and the scan has to end outside. *)
Fixpoint balanced_from (inside : bool) (s : string) : bool :=
  match s with
  | EmptyString => negb inside
  | String c s' =>
      if eqc c "{" then (if inside then false else balanced_from true s')
      else if eqc c "}" then (if inside then balanced_from false s' else false)
      else balanced_from inside s'
  end.

Definition balanced (s : string) : bool := balanced_from false s.

End Spec.

(** ** The languages of the patterns

    What a pattern stands for, apart from how [MatchString] finds it, and
    the shapes of the strings of the compiled patterns. *)

(** Concatenations of strings of [L] *)
Inductive star (L : string -> Prop) : string -> Prop :=
| star_nil : star L ""
| star_app (s1 s2 : string) : L s1 -> star L s2 -> star L (s1 +:+ s2).

(** The strings of a pattern *)
Fixpoint lang (r : re) (s : string) : Prop :=
  match r with
  | Fail => False
  | Eps => s = ""
  | Class k => exists c : ascii, s = String c "" /\ in_class k c = true
  | Cat a b => exists s1 s2 : string, s = s1 +:+ s2 /\ lang a s1 /\ lang b s2
  | Alt a b => lang a s \/ lang b s
  | Star a => star (lang a) s
  end.

(** Every byte of [s] satisfies [p]. *)
Fixpoint every (p : ascii -> bool) (s : string) : bool :=
  match s with
  | EmptyString => true
  | String c s' => p c && every p s'
  end.

(** [[a-f0-9]] as a test on a byte *)
Definition lowerHex (c : ascii) : bool := between "a" "f" c || between "0" "9" c.

(** A group of [n] lower-case hexadecimal digits *)
Definition hexGroup (n : nat) (s : string) : Prop :=
  len s = n /\ every lowerHex s = true.

(** The derivatives of [jsonPointerBody] inside a reference token and after
    a [~] *)
Definition ptrToken : re :=
  Cat (Star (Alt (Class (mkClass true [("~", "~"); ("/", "/")]%char))
                 (Alt (Cat (Lit "~") (Lit "0")) (Cat (Lit "~") (Lit "1")))))
      jsonPointerBody.

Definition ptrTilde : re :=
  Cat (Cat (Alt (Lit "0") (Lit "1"))
           (Star (Alt (Class (mkClass true [("~", "~"); ("/", "/")]%char))
                      (Alt (Cat (Lit "~") (Lit "0")) (Cat (Lit "~") (Lit "1"))))))
      jsonPointerBody.

(** Reference tokens as a scan from the left: a [~] has to be followed by
    [0] or [1]. *)
Fixpoint scanTokens (tilde : bool) (s : string) : bool :=
  match s with
  | EmptyString => negb tilde
  | String c s' =>
      if tilde then (eqc c "0" || eqc c "1") && scanTokens false s'
      else scanTokens (eqc c "~") s'
  end.

(** Every [~] of [s] is followed by [0] or by [1]. *)
Definition tildesEscaped (s : string) : Prop :=
  forall pre post : string,
    s = pre +:+ String "~" post ->
    exists (c : ascii) (post' : string),
      post = String c post' /\ (c = "0" \/ c = "1")%char.

(** A decimal numeral without leading zeros: [0], or a digit from [1] to
    [9] followed by digits. *)
Definition canonicalNat (s : string) : bool :=
  match s with
  | EmptyString => false
  | String c ds =>
      (eqc c "0" && (len ds =? 0)%nat)
      || (between "1" "9" c && every (between "0" "9") ds)
  end.

(** [[a-zA-Z0-9]] and [[a-zA-Z0-9\-]] as tests on a byte *)
Definition isAlnum (c : ascii) : bool :=
  between "a" "z" c || between "A" "Z" c || between "0" "9" c.

Definition isAlnumHyphen (c : ascii) : bool := isAlnum c || eqc c "-".

(** The last byte of [String c s] *)
Fixpoint lastByte (c : ascii) (s : string) : ascii :=
  match s with
  | EmptyString => c
  | String d s' => lastByte d s'
  end.

(** A label of a host name: 1 to 63 letters, digits and hyphens, with no
    hyphen at either end *)
Definition hostLabelOK (l : string) : bool :=
  match l with
  | EmptyString => false
  | String a r =>
      isAlnum a && isAlnum (lastByte a r) && every isAlnumHyphen r
      && (len r <=? 62)%nat
  end.

(** The parts of [s] between its dots: the first one, and the others *)
Fixpoint splitDots (s : string) : string * list string :=
  match s with
  | EmptyString => (EmptyString, [])
  | String c s' =>
      let '(l, ls) := splitDots s' in
      if eqc c "." then (EmptyString, l :: ls) else (String c l, ls)
  end.

Definition labels (s : string) : list string :=
  let '(l, ls) := splitDots s in l :: ls.

(** Each of [ls] after a dot *)
Fixpoint dotted (ls : list string) : string :=
  match ls with
  | [] => ""
  | l :: ls' => String "." (l +:+ dotted ls')
  end.

(** A byte other than the dot *)
Definition noDot (c : ascii) : bool := negb (eqc c ".").

(** The scheme of a URI: a letter, then letters, digits, [+], [-] and [.] *)
Definition isLetter (c : ascii) : bool := between "a" "z" c || between "A" "Z" c.

Definition isSchemeByte (c : ascii) : bool :=
  isLetter c || (between "0" "9" c || eqc c "+" || eqc c "-" || eqc c ".").

Definition validScheme (scheme : string) : bool :=
  match scheme with
  | EmptyString => false
  | String c r => isLetter c && every isSchemeByte r
  end.


(** * Theorems *)

(** ** The registry *)

Section Registry.

Context {T : Type} `{FormatChecker T}.
Implicit Types (c : FormatCheckerChain) (name : string) (input : value).

Lemma Has_result c name :
  result (FormatCheckerChain.Has name) c
  = bool_decide (is_Some (formatters c !! name)).
Proof.
  unfold result, FormatCheckerChain.Has, FormatCheckerChain.bind,
    FormatCheckerChain.load, FormatCheckerChain.ret; simpl.
  destruct (formatters c !! name) as [chk|] eqn:E.
  - symmetry. apply bool_decide_eq_true. eauto.
  - symmetry. apply bool_decide_eq_false. intros [x Hx]. discriminate.
Qed.

Lemma Has_false_iff c name :
  result (FormatCheckerChain.Has name) c = false <-> formatters c !! name = None.
Proof.
  rewrite Has_result, bool_decide_eq_false, <- eq_None_not_Some. reflexivity.
Qed.

Lemma IsFormat_result c name input :
  result (FormatCheckerChain.IsFormat name input) c =
  match formatters c !! name with
  | None => true
  | Some chk => IsFormatE chk input
  end.
Proof.
  unfold result, FormatCheckerChain.IsFormat, FormatCheckerChain.bind,
    FormatCheckerChain.load, FormatCheckerChain.ret; simpl.
  destruct (formatters c !! name); reflexivity.
Qed.

Lemma Add_formatters c name (f : T) :
  formatters (after (FormatCheckerChain.Add name f) c)
  = <[name := convertToNewChecker f]> (formatters c).
Proof. reflexivity. Qed.

Lemma Remove_formatters c name :
  formatters (after (FormatCheckerChain.Remove name) c) = delete name (formatters c).
Proof. reflexivity. Qed.

Lemma Has_frame c name : after (FormatCheckerChain.Has name) c = c.
Proof.
  unfold after, FormatCheckerChain.Has, FormatCheckerChain.bind,
    FormatCheckerChain.load, FormatCheckerChain.ret; simpl.
  destruct (formatters c !! name); reflexivity.
Qed.

Lemma IsFormat_frame c name input : after (FormatCheckerChain.IsFormat name input) c = c.
Proof.
  unfold after, FormatCheckerChain.IsFormat, FormatCheckerChain.bind,
    FormatCheckerChain.load, FormatCheckerChain.ret; simpl.
  destruct (formatters c !! name); reflexivity.
Qed.

End Registry.

(** C1.  [IsFormat] on the registry answers [true] for a name that [Has]
    reports as not registered, answers with the verdict of the checker bound
    to the name when there is one, and after [Add(name, f)] that verdict is
    the one of [f] itself. *)
Theorem IsFormat_unregistered_or_delegates
    (c : FormatCheckerChain) (name : string) (input : value) :
  (result (FormatCheckerChain.Has name) c = false ->
   result (FormatCheckerChain.IsFormat name input) c = true)
  /\ (forall chk : FormatCheckerWithError,
        formatters c !! name = Some chk ->
        result (FormatCheckerChain.IsFormat name input) c
        = IsFormatE chk input)
  /\ (forall (T : Type) (I : FormatChecker T) (f : T),
        result (FormatCheckerChain.IsFormat name input)
               (after (FormatCheckerChain.Add name f) c)
        = IsFormat f input).
Proof.
  repeat split.
  - intros Hno. apply Has_false_iff in Hno.
    rewrite IsFormat_result, Hno. reflexivity.
  - intros chk Hchk. rewrite IsFormat_result, Hchk. reflexivity.
  - intros T I f. rewrite IsFormat_result, Add_formatters, lookup_insert_eq.
    reflexivity.
Qed.

(** The theorem at the empty registry and at a registry holding the date
    checker. *)
Lemma IsFormat_unregistered_or_delegates_witness :
  result (FormatCheckerChain.IsFormat "color" (VString "red"))
         (mkFormatCheckerChain ∅) = true
  /\ result (FormatCheckerChain.IsFormat "date" (VString "2024-02-30"))
       (mkFormatCheckerChain {[ "date" := convertToNewChecker mkDateFormatChecker ]})
     = false.
Proof.
  split.
  - apply (proj1 (IsFormat_unregistered_or_delegates
                    (mkFormatCheckerChain ∅) "color" (VString "red"))).
    reflexivity.
  - rewrite (proj1 (proj2 (IsFormat_unregistered_or_delegates
               (mkFormatCheckerChain {[ "date" := convertToNewChecker mkDateFormatChecker ]})
               "date" (VString "2024-02-30")))
               (convertToNewChecker mkDateFormatChecker)).
    + reflexivity.
    + reflexivity.
Defined.

(** C7.  After [Add(name, f)] and then [Remove(name)], [Has(name)] is
    false; so it has its value from before the [Add] exactly when [name] was
    not bound then, and a binding that [Add] has overwritten is not brought
    back.  The other bindings are as before. *)
Theorem Add_then_Remove_Has
    (c : FormatCheckerChain) (name : string) (T : Type) (I : FormatChecker T) (f : T) :
  let c' := after (FormatCheckerChain.Remove name)
                  (after (FormatCheckerChain.Add name f) c) in
  result (FormatCheckerChain.Has name) c' = false
  /\ (result (FormatCheckerChain.Has name) c'
      = result (FormatCheckerChain.Has name) c
      <-> formatters c !! name = None)
  /\ formatters c' = delete name (formatters c).
Proof.
  intros c'.
  assert (Hmap : formatters c' = delete name (formatters c)).
  { unfold c'. rewrite Remove_formatters, Add_formatters.
    apply delete_insert_eq. }
  assert (Hhas : result (FormatCheckerChain.Has name) c' = false).
  { apply Has_false_iff. rewrite Hmap. apply lookup_delete_eq. }
  repeat split; try assumption.
  - intros Heq. rewrite Hhas in Heq. symmetry in Heq.
    apply Has_false_iff in Heq. exact Heq.
  - intros Hnone. rewrite Hhas. symmetry. apply Has_false_iff. exact Hnone.
Qed.

(** C9.  [Has] and [IsFormat] return the registry they were given: every
    name has the binding it had, or none if it had none. *)
Theorem queries_leave_registry_unchanged
    (c : FormatCheckerChain) (name : string) (input : value) :
  after (FormatCheckerChain.Has name) c = c
  /\ after (FormatCheckerChain.IsFormat name input) c = c
  /\ (forall k : string,
        formatters (after (FormatCheckerChain.Has name) c) !! k
        = formatters c !! k
        /\ formatters (after (FormatCheckerChain.IsFormat name input) c) !! k
           = formatters c !! k).
Proof.
  rewrite Has_frame, IsFormat_frame. repeat split; reflexivity.
Qed.

(** ** Inputs that are not strings *)

Section NonStrings.

Context (P : Primitives).

Lemma non_string_as_string (v : value) : is_string v = false -> as_string v = None.
Proof. destruct v; simpl; congruence. Qed.

Lemma non_string_rejected (v : value) : is_string v = false -> rejects_all_checkers P v.
Proof.
  intros Hv. apply non_string_as_string in Hv.
  unfold rejects_all_checkers, IsFormat,
    EmailFormatChecker_IsFormat, IPV4FormatChecker_IsFormat,
    IPV6FormatChecker_IsFormat, DateTimeFormatChecker_IsFormat,
    DateFormatChecker_IsFormat, TimeFormatChecker_IsFormat,
    URIFormatChecker_IsFormat, URIReferenceFormatChecker_IsFormat,
    URITemplateFormatChecker_IsFormat, HostnameFormatChecker_IsFormat,
    UUIDFormatChecker_IsFormat, RegexFormatChecker_IsFormat,
    JSONPointerFormatChecker_IsFormat, RelativeJSONPointerFormatChecker_IsFormat.
  rewrite Hv. repeat split.
Qed.

Lemma builtin_rejects (v : value) (name : string) (chk : FormatCheckerWithError) :
  is_string v = false ->
  formatters FormatCheckers !! name = Some chk ->
  IsFormatE chk v = false.
Proof.
  intros Hv Hin.
  pose proof (non_string_rejected v Hv) as R.
  unfold rejects_all_checkers in R.
  apply elem_of_list_to_map_2 in Hin. unfold builtin in Hin.
  repeat (apply elem_of_cons in Hin as [Hin|Hin];
          [ injection Hin as _ ->; unfold convertToNewChecker; simpl; tauto | ]).
  apply elem_of_nil in Hin. contradiction.
Qed.

End NonStrings.

(** C2.  On an input that is not a string every built-in checker answers
    [false] (the checkers are total functions: there is no other outcome),
    and so does the registry [FormatCheckers] for every name it holds. *)
Theorem builtin_checkers_reject_non_strings (P : Primitives) (v : value) :
  is_string v = false ->
  rejects_all_checkers P v
  /\ (forall name : string,
        result (FormatCheckerChain.Has name) FormatCheckers = true ->
        result (FormatCheckerChain.IsFormat name v) FormatCheckers = false).
Proof.
  intros Hv. split.
  - apply non_string_rejected, Hv.
  - intros name Hhas. rewrite Has_result in Hhas.
    apply bool_decide_eq_true in Hhas. destruct Hhas as [chk Hchk].
    rewrite IsFormat_result, Hchk.
    apply (builtin_rejects P v name chk Hv Hchk).
Qed.

(** The theorem at the number zero. *)
Lemma builtin_checkers_reject_non_strings_witness :
  is_string (VNumber (S754_zero false)) = false
  /\ rejects_all_checkers refusing (VNumber (S754_zero false))
  /\ result (FormatCheckerChain.IsFormat "uuid" (VNumber (S754_zero false)))
       (@FormatCheckers refusing) = false.
Proof.
  pose proof (builtin_checkers_reject_non_strings refusing (VNumber (S754_zero false))
                eq_refl) as [R1 R2].
  split; [reflexivity|]. split; [exact R1|].
  apply R2. reflexivity.
Defined.

(** ** IP addresses *)

(** C10.  The IPv4-mapped IPv6 literal [::ffff:192.168.0.1] has a [.] and a
    [:], [net.ParseIP] accepts it, and both the [ipv4] and the [ipv6]
    checker answer [true] on it. *)
Theorem ipv4_ipv6_not_exclusive :
  exists s : string,
    s = "::ffff:192.168.0.1"
    /\ has_byte "." s /\ has_byte ":" s
    /\ net.ParseIP s = Some [0; 0; 0; 0; 0; 0; 0; 0; 0; 0; 255; 255; 192; 168; 0; 1]%Z
    /\ IsFormat mkIPV4FormatChecker (VString s) = true
    /\ IsFormat mkIPV6FormatChecker (VString s) = true.
Proof.
  exists "::ffff:192.168.0.1". repeat split.
  - exists "::ffff:192", "168.0.1". reflexivity.
  - exists "", ":ffff:192.168.0.1". reflexivity.
Qed.

(** ** URIs *)

Lemma HasPrefix_byte (s : string) (c : ascii) :
  strings.HasPrefix s (String c "") = true <-> exists post, s = String c post.
Proof.
  destruct s as [|a s']; simpl.
  - split; [discriminate | intros [post Hp]; discriminate].
  - rewrite andb_true_r. unfold eqc. rewrite Ascii.eqb_eq. split.
    + intros ->. eauto.
    + intros [post Hp]. injection Hp as -> _. reflexivity.
Qed.

Lemma Contains_cons (a c : ascii) (s : string) :
  strings.Contains (String a s) (String c "")
  = eqc a c || strings.Contains s (String c "").
Proof.
  unfold strings.Contains. simpl. rewrite andb_true_r.
  destruct (eqc a c); [reflexivity|]. simpl.
  destruct (strings.Index s (String c "")); reflexivity.
Qed.

Lemma Contains_byte (s : string) (c : ascii) :
  strings.Contains s (String c "") = true <-> has_byte c s.
Proof.
  induction s as [|a s' IH].
  - split; [discriminate|]. intros (pre & post & Hp).
    destruct pre; discriminate.
  - rewrite Contains_cons, orb_true_iff, IH. unfold eqc. rewrite Ascii.eqb_eq.
    split.
    + intros [-> | (pre & post & ->)].
      * exists "", s'. reflexivity.
      * exists (String a pre), post. reflexivity.
    + intros (pre & post & Hp). destruct pre as [|b pre]; simpl in Hp.
      * injection Hp as -> _. left; reflexivity.
      * injection Hp as _ ->. right. exists pre, post. reflexivity.
Qed.

Lemma Contains_byte_false (s : string) (c : ascii) :
  strings.Contains s (String c "") = false <-> ~ has_byte c s.
Proof.
  rewrite <- Contains_byte. destruct (strings.Contains s (String c "")); split;
    congruence.
Qed.

Lemma URIFormatChecker_spec (s : string) :
  IsFormat mkURIFormatChecker (VString s) = true
  <-> (exists u : url.URL, url.Parse s = Some u /\ url.Scheme u <> "")
      /\ ~ has_byte "\" s.
Proof.
  unfold IsFormat, URIFormatChecker_IsFormat; simpl.
  rewrite <- Contains_byte_false. fold backslash.
  destruct (url.Parse s) as [u|].
  - destruct (String.eqb (url.Scheme u) "") eqn:E.
    + apply String.eqb_eq in E. split; [discriminate|].
      intros [(u' & Hu & Hs) _]. injection Hu as <-. contradiction.
    + apply String.eqb_neq in E. rewrite negb_true_iff. split.
      * intros Hc. split; [exists u; auto | exact Hc].
      * intros [_ Hc]. exact Hc.
  - split; [discriminate|]. intros [(u' & Hu & _) _]. discriminate.
Qed.

(** C5.  The [uri] checker answers [true] on a string exactly when
    [url.Parse] accepts the string with a non-empty scheme and the string has
    no backslash; on [http://example.com] it answers [true], on
    [example.com] and on [http:\evil] (with one backslash or two) [false]. *)
Theorem uri_checker_scheme_and_no_backslash :
  (forall s : string,
     IsFormat mkURIFormatChecker (VString s) = true
     <-> (exists u : url.URL, url.Parse s = Some u /\ url.Scheme u <> "")
         /\ ~ has_byte "\" s)
  /\ IsFormat mkURIFormatChecker (VString "http://example.com") = true
  /\ IsFormat mkURIFormatChecker (VString "example.com") = false
  /\ IsFormat mkURIFormatChecker (VString "http:\evil") = false
  /\ IsFormat mkURIFormatChecker (VString "http:\\evil") = false.
Proof.
  split; [exact URIFormatChecker_spec|]. repeat split.
Qed.

Lemma URITemplateFormatChecker_spec (s : string) :
  IsFormat mkURITemplateFormatChecker (VString s) = true
  <-> exists u : url.URL,
        url.Parse s = Some u /\ ~ has_byte "\" s
        /\ MatchString rxURITemplate (url.Path u) = true.
Proof.
  unfold IsFormat, URITemplateFormatChecker_IsFormat; simpl.
  destruct (url.Parse s) as [u|].
  - fold backslash. destruct (strings.Contains s backslash) eqn:E.
    + split; [discriminate|]. intros (u' & _ & Hc & _).
      apply Contains_byte_false in Hc. unfold backslash in E. congruence.
    + split.
      * intros Hm. exists u. repeat split; [|exact Hm].
        apply Contains_byte_false. exact E.
      * intros (u' & Hu & _ & Hm). injection Hu as <-. exact Hm.
  - split; [discriminate|]. intros (u' & Hu & _). discriminate.
Qed.

Lemma byte_inj (a b : ascii) : byte a = byte b -> a = b.
Proof.
  unfold byte. intros E. apply N2Z.inj in E.
  rewrite <- (ascii_N_embedding a), <- (ascii_N_embedding b), E. reflexivity.
Qed.

Lemma between_same (a c : ascii) : between a a c = eqc c a.
Proof.
  unfold between, eqc. destruct (Ascii.eqb_spec c a) as [->|Hne].
  - rewrite Z.leb_refl. reflexivity.
  - destruct (Z.leb_spec (byte a) (byte c)); [|reflexivity].
    destruct (Z.leb_spec (byte c) (byte a)); [|reflexivity].
    exfalso. apply Hne, byte_inj. lia.
Qed.

Lemma in_class_Lit (x c : ascii) : in_class (mkClass false [(x, x)]) c = eqc c x.
Proof. unfold in_class. simpl. rewrite between_same, orb_false_r. reflexivity. Qed.

Lemma in_class_Not (x c : ascii) : in_class (mkClass true [(x, x)]) c = negb (eqc c x).
Proof. unfold in_class. simpl. rewrite between_same, orb_false_r. reflexivity. Qed.

Lemma deriv_tpl (c : ascii) :
  deriv c (body rxURITemplate) = (if eqc c "{" then tplInside else tplOutside)
  /\ deriv c tplOutside = (if eqc c "{" then tplInside else tplOutside)
  /\ deriv c tplInside = (if eqc c "}" then body rxURITemplate else tplInside).
Proof.
  unfold tplOutside, tplInside, rxURITemplate, body, Not, Lit, Opt.
  cbn [deriv nullable andb orb].
  rewrite !in_class_Lit, !in_class_Not.
  destruct (eqc c "{") eqn:E1; destruct (eqc c "}") eqn:E2;
    repeat split; reflexivity.
Qed.

Lemma matches_tpl (s : string) :
  matches (body rxURITemplate) s = scanBraces false s
  /\ matches tplOutside s = scanBraces false s
  /\ matches tplInside s = scanBraces true s.
Proof.
  induction s as [|c s (IH0 & IH1 & IH2)]; [repeat split; reflexivity|].
  destruct (deriv_tpl c) as (D0 & D1 & D2).
  cbn [matches scanBraces]. rewrite D0, D1, D2.
  destruct (eqc c "{"), (eqc c "}"); cbn [negb]; auto.
Qed.

Lemma rxURITemplate_language (s : string) :
  MatchString rxURITemplate s = scanBraces false s.
Proof. apply matches_tpl. Qed.

Lemma balanced_scanBraces (s : string) (inside : bool) :
  Spec.balanced_from inside s = true -> scanBraces inside s = true.
Proof.
  revert inside. induction s as [|c s IH]; intros inside; [trivial|].
  cbn [Spec.balanced_from scanBraces].
  destruct (eqc c "{") eqn:E1; destruct (eqc c "}") eqn:E2; destruct inside;
    cbn [negb]; try discriminate; apply IH.
Qed.


(** C6, at the inputs where the code leaves the claim.  A path of
    balanced, non-nested expressions matches [rxURITemplate], but so do the
    path [/a}], with a closing brace that nothing opens, and the path
    [/{a{b}], which opens a brace inside an expression: the
    [uri-template] checker answers [true] on both.  A brace left open is
    refused in the path and not looked at in the query. *)
Theorem uri_template_accepts_unbalanced_braces :
  (forall p : string,
     Spec.balanced p = true -> MatchString rxURITemplate p = true)
  /\ (url.Path <$> url.Parse "/a}" = Some "/a}"
      /\ Spec.balanced "/a}" = false
      /\ IsFormat mkURITemplateFormatChecker (VString "/a}") = true)
  /\ (url.Path <$> url.Parse "/{a{b}" = Some "/{a{b}"
      /\ Spec.balanced "/{a{b}" = false
      /\ IsFormat mkURITemplateFormatChecker (VString "/{a{b}") = true)
  /\ IsFormat mkURITemplateFormatChecker (VString "/a{b") = false
  /\ IsFormat mkURITemplateFormatChecker (VString "/a{b}") = true
  /\ IsFormat mkURITemplateFormatChecker (VString "/a?q={b") = true.
Proof.
  split.
  - intros p Hp. rewrite rxURITemplate_language.
    apply balanced_scanBraces, Hp.
  - repeat split.
Qed.

(** ** Times *)

(** C3, at the input where the code leaves the claim.  [time.Parse] takes
    a seconds field of [00] to [59] only, so the [time] checker answers
    [false] on the leap second [23:59:60], with or without an offset, and
    [true] on [23:59:59].  It also answers [true] on an hour of one digit
    and on a fraction after the seconds. *)
Theorem time_checker_rejects_leap_second :
  IsFormat mkTimeFormatChecker (VString "23:59:60") = false
  /\ IsFormat mkTimeFormatChecker (VString "23:59:60Z") = false
  /\ IsFormat mkTimeFormatChecker (VString "23:59:60+00:00") = false
  /\ IsFormat mkTimeFormatChecker (VString "23:59:59") = true
  /\ IsFormat mkTimeFormatChecker (VString "23:59:59Z") = true
  /\ IsFormat mkTimeFormatChecker (VString "23:59:59+00:00") = true
  /\ IsFormat mkTimeFormatChecker (VString "1:02:03") = true
  /\ IsFormat mkTimeFormatChecker (VString "12:00:00.5") = true.
Proof. repeat split. Qed.

(** ** Message makers *)

Lemma append_cons (c : ascii) (s t : string) : String c s +:+ t = String c (s +:+ t).
Proof. reflexivity. Qed.

Lemma append_assoc (s t u : string) : (s +:+ t) +:+ u = s +:+ t +:+ u.
Proof.
  induction s as [|c s IH]; [reflexivity|].
  rewrite !append_cons, IH. reflexivity.
Qed.

(** An operand short: the output holds the [MISSING] mark of [fmt]. *)
Lemma doPrintf_missing (n : nat) :
  forall (format : string) (a : list fmt.arg),
    len format <= n ->
    length a < fmt.verbs format ->
    exists (pre : string) (verb : ascii) (post : string),
      fmt.doPrintf format a = pre +:+ fmt.missingArg verb +:+ post.
Proof.
  induction n as [|n IH]; intros format a Hlen Hlt.
  - destruct format; simpl in *; lia.
  - destruct format as [|c format1]; [simpl in Hlt; lia|].
    simpl in Hlt |- *. unfold len in Hlen; simpl in Hlen.
    destruct (eqc c "%").
    + destruct format1 as [|verb format2]; [lia|]. simpl in Hlen.
      destruct (eqc verb "%").
      * destruct (IH format2 a) as (pre & v & post & E); [unfold len; lia|lia|].
        exists (String "%" pre), v, post. rewrite E. reflexivity.
      * destruct a as [|x a'].
        -- exists "", verb, (fmt.doPrintf format2 []). reflexivity.
        -- simpl in Hlt.
           destruct (IH format2 a') as (pre & v & post & E); [unfold len; lia|lia|].
           exists (fmt.printArg x verb +:+ pre), v, post.
           rewrite E, append_assoc. reflexivity.
    + destruct (IH format1 a) as (pre & v & post & E); [unfold len; lia|lia|].
      exists (String c pre), v, post. rewrite E. reflexivity.
Qed.

(** Operands left over: the output ends with the [EXTRA] report of [fmt]
    on the operands that no verb has taken. *)
Lemma doPrintf_extra (n : nat) :
  forall (format : string) (a : list fmt.arg),
    len format <= n ->
    exists pre : string,
      fmt.doPrintf format a = pre +:+ fmt.extra (skipn (fmt.verbs format) a).
Proof.
  induction n as [|n IH]; intros format a Hlen.
  - destruct format; [|unfold len in Hlen; simpl in Hlen; lia].
    exists "". reflexivity.
  - destruct format as [|c format1]; [exists ""; reflexivity|].
    unfold len in Hlen; simpl in Hlen. simpl.
    destruct (eqc c "%").
    + destruct format1 as [|verb format2]; [exists "%!(NOVERB)"; reflexivity|].
      simpl in Hlen. destruct (eqc verb "%").
      * destruct (IH format2 a) as (pre & E); [unfold len; lia|].
        exists (String "%" pre). rewrite E. reflexivity.
      * destruct a as [|x a'].
        -- destruct (IH format2 []) as (pre & E); [unfold len; lia|].
           exists (fmt.missingArg verb +:+ pre).
           rewrite E, append_assoc, skipn_nil. reflexivity.
        -- destruct (IH format2 a') as (pre & E); [unfold len; lia|].
           exists (fmt.printArg x verb +:+ pre).
           rewrite E, append_assoc. reflexivity.
    + destruct (IH format1 a) as (pre & E); [unfold len; lia|].
      exists (String c pre). rewrite E. reflexivity.
Qed.

Lemma extra_marks (a : list fmt.arg) :
  a <> [] -> exists body : string, fmt.extra a = "%!(EXTRA " +:+ body +:+ ")".
Proof.
  destruct a as [|x a']; [congruence|]. intros _. simpl. eauto.
Qed.

Lemma messageMakers_plain :
  Forall (fun b : string * string * messageMaker => fmt.plain b.1.2 = true)
         messageMakers.
Proof. repeat constructor. Qed.

Lemma messageMakers_bound :
  Forall (fun b : string * string * messageMaker =>
            b.2 = newMessageMaker b.1.1 b.1.2) messageMakers.
Proof. repeat constructor. Qed.

(** C8.  A bound message maker is a function from every list of operands
    to a [Message]; the [Code] of the message is the bound code.  With
    fewer operands than the template has verbs the [Description] holds a
    [%!verb(MISSING)] mark, and with more it ends with a [%!(EXTRA ...)]
    report of the operands left over. *)
Theorem message_maker_total
    (code format : string) (mk : messageMaker) (args : list fmt.arg) :
  In (code, format, mk) messageMakers ->
  Code (mk args) = code
  /\ (length args < fmt.verbs format ->
      exists (pre : string) (verb : ascii) (post : string),
        Description (mk args) = pre +:+ fmt.missingArg verb +:+ post)
  /\ (fmt.verbs format < length args ->
      exists pre body : string,
        Description (mk args) = pre +:+ "%!(EXTRA " +:+ body +:+ ")").
Proof.
  intros Hin.
  pose proof (proj1 (List.Forall_forall _ _) messageMakers_bound _ Hin) as Hmk.
  simpl in Hmk. subst mk. unfold newMessageMaker, fmt.Sprintf; simpl.
  repeat split.
  - intros Hlt. apply (doPrintf_missing (len format)); [lia|exact Hlt].
  - intros Hlt.
    destruct (doPrintf_extra (len format) format args) as (pre & E); [lia|].
    destruct (extra_marks (skipn (fmt.verbs format) args)) as (body & Eb).
    { intros Hnil. apply (f_equal (@length _)) in Hnil.
      rewrite length_skipn in Hnil. simpl in Hnil. lia. }
    exists pre, body. rewrite E, Eb. reflexivity.
Qed.

(** The theorem at the two-verb template of [X_MUST_BE_OF_TYPE_Y] with one
    operand. *)
Lemma message_maker_total_witness :
  Code (ERROR_MESSAGE_X_MUST_BE_OF_TYPE_Y [fmt.Str "age"]) = "X_MUST_BE_OF_TYPE_Y"
  /\ Description (ERROR_MESSAGE_X_MUST_BE_OF_TYPE_Y [fmt.Str "age"])
     = "age must be of type %!s(MISSING)".
Proof.
  split.
  - apply (message_maker_total X_MUST_BE_OF_TYPE_Y "%s must be of type %s"
             ERROR_MESSAGE_X_MUST_BE_OF_TYPE_Y [fmt.Str "age"]).
    do 2 right. left. reflexivity.
  - reflexivity.
Defined.

(** ** Dates *)

Section Dates.

Local Open Scope Z_scope.

Lemma byte_digit_char (d : Z) : Spec.is_digit d -> byte (Spec.digit_char d) = 48 + d.
Proof.
  intros Hd. unfold Spec.is_digit in Hd.
  assert (d = 0 \/ d = 1 \/ d = 2 \/ d = 3 \/ d = 4 \/ d = 5 \/ d = 6 \/ d = 7
          \/ d = 8 \/ d = 9) as Hc by lia.
  repeat (destruct Hc as [->|Hc]; [reflexivity|]). subst. reflexivity.
Qed.

Lemma between_digit (c : ascii) :
  between "0" "9" c = true <-> exists d : Z, Spec.is_digit d /\ c = Spec.digit_char d.
Proof.
  unfold between. change (byte "0") with 48. change (byte "9") with 57.
  rewrite andb_true_iff, !Z.leb_le. split.
  - intros [Hlo Hhi]. exists (byte c - 48). split; [unfold Spec.is_digit; lia|].
    unfold Spec.digit_char. replace (48 + (byte c - 48)) with (byte c) by lia.
    unfold byte. rewrite N2Z.id, ascii_N_embedding. reflexivity.
  - intros (d & Hd & ->). rewrite byte_digit_char by exact Hd.
    unfold Spec.is_digit in Hd. lia.
Qed.

Lemma between_digit_char (d : Z) : Spec.is_digit d -> between "0" "9" (Spec.digit_char d) = true.
Proof. intros Hd. apply between_digit. eauto. Qed.

Lemma getnum_fixed_digits (a b : Z) (r : string) :
  Spec.is_digit a -> Spec.is_digit b ->
  time.getnum (String (Spec.digit_char a) (String (Spec.digit_char b) r)) true
  = Some (10 * a + b, r).
Proof.
  intros Ha Hb. unfold time.getnum, time.isDigit, time.digit. simpl.
  rewrite !between_digit_char by assumption. simpl.
  rewrite !byte_digit_char by assumption. change (byte "0") with 48.
  do 2 f_equal. lia.
Qed.

Lemma getnum_fixed_inv (s r : string) (n : Z) :
  time.getnum s true = Some (n, r) ->
  exists a b : Z,
    Spec.is_digit a /\ Spec.is_digit b
    /\ s = String (Spec.digit_char a) (String (Spec.digit_char b) r) /\ n = 10 * a + b.
Proof.
  unfold time.getnum, time.isDigit, time.digit.
  destruct s as [|c1 [|c2 s2]]; simpl; try discriminate.
  - destruct (between "0" "9" c1); discriminate.
  - destruct (between "0" "9" c1) eqn:E1; [|discriminate].
    destruct (between "0" "9" c2) eqn:E2; [|discriminate]. simpl.
    apply between_digit in E1 as (a & Ha & ->).
    apply between_digit in E2 as (b & Hb & ->).
    rewrite !byte_digit_char by assumption. change (byte "0") with 48.
    intros [= <- <-]. exists a, b.
    split; [exact Ha|]. split; [exact Hb|]. split; [reflexivity|lia].
Qed.

Lemma not_between_digit (c : ascii) :
  (byte c <? byte "0") || (byte "9" <? byte c) = negb (between "0" "9" c).
Proof.
  unfold between. rewrite negb_andb, !Z.leb_antisym, !negb_involutive.
  reflexivity.
Qed.

Lemma leadingInt_digit (x d : Z) (s : string) :
  Spec.is_digit d -> 0 <= x <= 1000000 ->
  time.leadingInt_from x (String (Spec.digit_char d) s)
  = time.leadingInt_from (10 * x + d) s.
Proof.
  intros Hd Hx. simpl. rewrite not_between_digit, between_digit_char by exact Hd.
  simpl. rewrite byte_digit_char by exact Hd. change (byte "0") with 48.
  change (2 ^ 63 / 10) with 922337203685477580.
  change (2 ^ 63) with 9223372036854775808.
  unfold Spec.is_digit in Hd.
  destruct (Z.gtb_spec x 922337203685477580); [lia|].
  destruct (Z.gtb_spec (x * 10 + (48 + d) - 48) 9223372036854775808); [lia|].
  f_equal. lia.
Qed.

Lemma leadingInt_nondigit (x : Z) (c : ascii) (s : string) :
  between "0" "9" c = false ->
  time.leadingInt_from x (String c s) = Some (x, String c s).
Proof.
  intros Hc. simpl. rewrite not_between_digit, Hc. reflexivity.
Qed.

Lemma digit_not_sign (d : Z) :
  Spec.is_digit d -> eqc (Spec.digit_char d) "-" || eqc (Spec.digit_char d) "+" = false.
Proof.
  intros Hd. unfold Spec.is_digit in Hd.
  assert (d = 0 \/ d = 1 \/ d = 2 \/ d = 3 \/ d = 4 \/ d = 5 \/ d = 6 \/ d = 7
          \/ d = 8 \/ d = 9) as Hc by lia.
  repeat (destruct Hc as [->|Hc]; [reflexivity|]). subst. reflexivity.
Qed.

Lemma atoi_four_digits (y1 y2 y3 y4 : Z) :
  Spec.is_digit y1 -> Spec.is_digit y2 -> Spec.is_digit y3 -> Spec.is_digit y4 ->
  time.atoi (String (Spec.digit_char y1) (String (Spec.digit_char y2)
              (String (Spec.digit_char y3) (String (Spec.digit_char y4) ""))))
  = Some (1000 * y1 + 100 * y2 + 10 * y3 + y4).
Proof.
  intros H1 H2 H3 H4. unfold time.atoi.
  rewrite digit_not_sign by exact H1. unfold time.leadingInt.
  unfold Spec.is_digit in *.
  rewrite !leadingInt_digit by (unfold Spec.is_digit; lia).
  simpl. f_equal. lia.
Qed.

Lemma atoi_four_inv (c1 c2 c3 c4 : ascii) (y : Z) :
  between "0" "9" c1 = true ->
  time.atoi (String c1 (String c2 (String c3 (String c4 "")))) = Some y ->
  exists y1 y2 y3 y4 : Z,
    Spec.is_digit y1 /\ Spec.is_digit y2 /\ Spec.is_digit y3 /\ Spec.is_digit y4
    /\ c1 = Spec.digit_char y1 /\ c2 = Spec.digit_char y2
    /\ c3 = Spec.digit_char y3 /\ c4 = Spec.digit_char y4
    /\ y = 1000 * y1 + 100 * y2 + 10 * y3 + y4.
Proof.
  intros E1 Hy.
  apply between_digit in E1 as (y1 & H1 & ->).
  unfold time.atoi in Hy. rewrite digit_not_sign in Hy by exact H1.
  unfold time.leadingInt in Hy.
  rewrite leadingInt_digit in Hy by (unfold Spec.is_digit in *; lia).
  destruct (between "0" "9" c2) eqn:E2;
    [|rewrite leadingInt_nondigit in Hy by exact E2; discriminate].
  apply between_digit in E2 as (y2 & H2 & ->).
  rewrite leadingInt_digit in Hy by (unfold Spec.is_digit in *; lia).
  destruct (between "0" "9" c3) eqn:E3;
    [|rewrite leadingInt_nondigit in Hy by exact E3; discriminate].
  apply between_digit in E3 as (y3 & H3 & ->).
  rewrite leadingInt_digit in Hy by (unfold Spec.is_digit in *; lia).
  destruct (between "0" "9" c4) eqn:E4;
    [|rewrite leadingInt_nondigit in Hy by exact E4; discriminate].
  apply between_digit in E4 as (y4 & H4 & ->).
  rewrite leadingInt_digit in Hy by (unfold Spec.is_digit in *; lia).
  simpl in Hy. injection Hy as <-.
  exists y1, y2, y3, y4. repeat (split; [assumption|]).
  repeat (split; [reflexivity|]). lia.
Qed.

Lemma skip_dash (v r : string) :
  time.skip v "-" = Some r <-> v = String "-" r.
Proof.
  unfold time.skip. destruct v as [|a v']; simpl.
  - split; discriminate.
  - destruct (eqc a "-") eqn:E; unfold eqc in E.
    + apply Ascii.eqb_eq in E as ->. split; [intros [= ->]|intros [= ->]]; reflexivity.
    + apply Ascii.eqb_neq in E. split; [discriminate|]. intros [= -> _]. congruence.
Qed.

Lemma daysIn_spec (y m : Z) :
  0 <= y -> 1 <= m <= 12 -> time.daysIn m y = Spec.days_in_month y m.
Proof.
  intros Hy Hm. unfold time.daysIn, time.isLeap, Spec.days_in_month, Spec.leap_year.
  rewrite !Z.rem_mod_nonneg by lia.
  assert (m = 1 \/ m = 2 \/ m = 3 \/ m = 4 \/ m = 5 \/ m = 6 \/ m = 7 \/ m = 8
          \/ m = 9 \/ m = 10 \/ m = 11 \/ m = 12) as Hc by lia.
  repeat (destruct Hc as [->|Hc]; [reflexivity|]). subst. reflexivity.
Qed.

Lemma skip_empty (v : string) : time.skip v "" = Some v.
Proof. reflexivity. Qed.

Lemma parseChunks_cons (p : string) (c : time.std) (cs : list (string * time.std))
    (sfx : string) (f : time.fields) (v : string) :
  time.parseChunks ((p, c) :: cs) sfx f v =
  v ← time.skip v p;
  '(f, v) ← time.parseStd c (snd <$> head cs) f v;
  time.parseChunks cs sfx f v.
Proof. reflexivity. Qed.

Lemma parseChunks_nil (sfx : string) (f : time.fields) (v : string) :
  time.parseChunks [] sfx f v =
  v ← time.skip v sfx; if (len v =? 0)%nat then Some f else None.
Proof. reflexivity. Qed.

Lemma Parse_layoutDate (s : string) :
  time.Parse time.layoutDate s =
  '(f1, v1) ← time.parseStd time.stdLongYear (Some time.stdZeroMonth) time.init s;
  v2 ← time.skip v1 "-";
  '(f2, v3) ← time.parseStd time.stdZeroMonth (Some time.stdZeroDay) f1 v2;
  v4 ← time.skip v3 "-";
  '(f3, v5) ← time.parseStd time.stdZeroDay None f2 v4;
  if (len v5 =? 0)%nat then time.validate f3 else None.
Proof.
  unfold time.Parse, time.layoutDate, time.chunks, time.suffix.
  rewrite parseChunks_cons, skip_empty.
  cbn [mbind option_bind head fmap option_map snd list_fmap].
  destruct (time.parseStd time.stdLongYear _ _ _) as [[f1 v1]|]; [|reflexivity].
  cbn [mbind option_bind]. rewrite parseChunks_cons.
  cbn [mbind option_bind head fmap option_map snd list_fmap].
  destruct (time.skip v1 "-") as [v2|]; [|reflexivity].
  cbn [mbind option_bind].
  destruct (time.parseStd time.stdZeroMonth _ _ _) as [[f2 v3]|]; [|reflexivity].
  cbn [mbind option_bind]. rewrite parseChunks_cons.
  cbn [mbind option_bind head fmap option_map snd list_fmap].
  destruct (time.skip v3 "-") as [v4|]; [|reflexivity].
  cbn [mbind option_bind].
  destruct (time.parseStd time.stdZeroDay _ _ _) as [[f3 v5]|]; [|reflexivity].
  cbn [mbind option_bind].
  rewrite parseChunks_nil, skip_empty. cbn [mbind option_bind].
  destruct (len v5 =? 0)%nat; reflexivity.
Qed.

Lemma parseYear_digits (nx : option time.std) (f : time.fields)
    (y1 y2 y3 y4 : Z) (r : string) :
  Spec.is_digit y1 -> Spec.is_digit y2 -> Spec.is_digit y3 -> Spec.is_digit y4 ->
  time.parseStd time.stdLongYear nx f
    (String (Spec.digit_char y1) (String (Spec.digit_char y2)
      (String (Spec.digit_char y3) (String (Spec.digit_char y4) r))))
  = Some (time.with_year (1000 * y1 + 100 * y2 + 10 * y3 + y4) f, r).
Proof.
  intros H1 H2 H3 H4. unfold time.parseStd, time.isDigit, len. simpl.
  rewrite between_digit_char by exact H1. simpl.
  rewrite atoi_four_digits by assumption. reflexivity.
Qed.

Lemma parseYear_inv (nx : option time.std) (f f1 : time.fields) (s v1 : string) :
  time.parseStd time.stdLongYear nx f s = Some (f1, v1) ->
  exists y1 y2 y3 y4 : Z,
    Spec.is_digit y1 /\ Spec.is_digit y2 /\ Spec.is_digit y3 /\ Spec.is_digit y4
    /\ s = String (Spec.digit_char y1) (String (Spec.digit_char y2)
             (String (Spec.digit_char y3) (String (Spec.digit_char y4) v1)))
    /\ f1 = time.with_year (1000 * y1 + 100 * y2 + 10 * y3 + y4) f.
Proof.
  unfold time.parseStd, time.isDigit, len.
  destruct s as [|c1 [|c2 [|c3 [|c4 r]]]]; simpl; try discriminate.
  destruct (between "0" "9" c1) eqn:E1; simpl; [|discriminate].
  destruct (time.atoi _) as [y|] eqn:Ey; simpl; [|discriminate].
  intros [= <- <-].
  destruct (atoi_four_inv c1 c2 c3 c4 y E1 Ey)
    as (y1 & y2 & y3 & y4 & H1 & H2 & H3 & H4 & -> & -> & -> & -> & ->).
  exists y1, y2, y3, y4. repeat (split; [assumption|]). split; reflexivity.
Qed.

Lemma parseStd_month (nx : option time.std) (f : time.fields) (v : string) :
  time.parseStd time.stdZeroMonth nx f v =
  '(m, value) ← time.getnum v true;
  if (m <=? 0) || (12 <? m) then None else Some (time.with_month m f, value).
Proof. reflexivity. Qed.

Lemma parseStd_day (nx : option time.std) (f : time.fields) (v : string) :
  time.parseStd time.stdZeroDay nx f v =
  '(d, value) ← time.getnum v true; Some (time.with_day d f, value).
Proof. reflexivity. Qed.

Lemma DateFormatChecker_spec (s : string) :
  IsFormat mkDateFormatChecker (VString s) = true <-> Spec.full_date s.
Proof.
  unfold IsFormat, DateFormatChecker_IsFormat; simpl.
  rewrite Parse_layoutDate. split.
  - destruct (time.parseStd time.stdLongYear _ _ _) as [[f1 v1]|] eqn:E1;
      [|cbn; discriminate].
    apply parseYear_inv in E1 as (y1 & y2 & y3 & y4 & H1 & H2 & H3 & H4 & -> & ->).
    cbn [mbind option_bind].
    destruct (time.skip v1 "-") as [v2|] eqn:E2; [|cbn; discriminate].
    apply skip_dash in E2 as ->. cbn [mbind option_bind].
    rewrite parseStd_month.
    destruct (time.getnum v2 true) as [[m v3]|] eqn:E3; [|cbn; discriminate].
    apply getnum_fixed_inv in E3 as (m1 & m2 & Hm1 & Hm2 & -> & ->).
    cbn [mbind option_bind].
    destruct ((10 * m1 + m2 <=? 0) || (12 <? 10 * m1 + m2)) eqn:Em; [cbn; discriminate|].
    cbn [mbind option_bind].
    destruct (time.skip v3 "-") as [v4|] eqn:E4; [|cbn; discriminate].
    apply skip_dash in E4 as ->. cbn [mbind option_bind].
    rewrite parseStd_day.
    destruct (time.getnum v4 true) as [[d v5]|] eqn:E5; [|cbn; discriminate].
    apply getnum_fixed_inv in E5 as (d1 & d2 & Hd1 & Hd2 & -> & ->).
    cbn [mbind option_bind].
    destruct v5 as [|c v5]; [|cbn; discriminate]. simpl.
    unfold time.validate; simpl.
    apply orb_false_iff in Em as [Em1 Em2].
    apply Z.leb_gt in Em1. apply Z.ltb_ge in Em2.
    destruct (Z.ltb_spec (10 * m1 + m2) 0); [lia|].
    unfold Spec.is_digit in *.
    destruct (Z.ltb_spec (10 * d1 + d2) 0); [lia|].
    rewrite daysIn_spec by lia.
    destruct (Z.ltb_spec (10 * d1 + d2) 1); [cbn; discriminate|].
    destruct (Z.ltb_spec
                (Spec.days_in_month (1000 * y1 + 100 * y2 + 10 * y3 + y4) (10 * m1 + m2))
                (10 * d1 + d2)); [cbn; discriminate|].
    intros _. apply Spec.FullDate; unfold Spec.is_digit; lia.
  - intros Hs. destruct Hs as [y1 y2 y3 y4 m1 m2 d1 d2 H1 H2 H3 H4 Hm1 Hm2 Hd1 Hd2 Hm Hd].
    rewrite parseYear_digits by assumption. cbn [mbind option_bind].
    rewrite (proj2 (skip_dash _ _) eq_refl). cbn [mbind option_bind].
    rewrite parseStd_month, getnum_fixed_digits by assumption.
    cbn [mbind option_bind].
    destruct (Z.leb_spec (10 * m1 + m2) 0); [lia|].
    destruct (Z.ltb_spec 12 (10 * m1 + m2)); [lia|]. cbn [orb].
    cbn [mbind option_bind].
    rewrite (proj2 (skip_dash _ _) eq_refl). cbn [mbind option_bind].
    rewrite parseStd_day, getnum_fixed_digits by assumption.
    cbn [mbind option_bind]. simpl.
    unfold time.validate; simpl.
    destruct (Z.ltb_spec (10 * m1 + m2) 0); [lia|].
    destruct (Z.ltb_spec (10 * d1 + d2) 0); [lia|].
    unfold Spec.is_digit in *. rewrite daysIn_spec by lia.
    destruct (Z.ltb_spec (10 * d1 + d2) 1); [lia|].
    destruct (Z.ltb_spec
                (Spec.days_in_month (1000 * y1 + 100 * y2 + 10 * y3 + y4) (10 * m1 + m2))
                (10 * d1 + d2)); [lia|].
    reflexivity.
Qed.

End Dates.

(** C4.  The [date] checker answers [true] on a string exactly when the
    string is [YYYY-MM-DD] with a month from 01 to 12 and a day from 01 to
    the number of days of that month in that year, 29 for February in a leap
    year; it answers [false] on [2023-02-29] and [true] on [2024-02-29]. *)
Theorem date_checker_full_date :
  (forall s : string,
     IsFormat mkDateFormatChecker (VString s) = true <-> Spec.full_date s)
  /\ IsFormat mkDateFormatChecker (VString "2023-02-29") = false
  /\ IsFormat mkDateFormatChecker (VString "2024-02-29") = true.
Proof.
  split; [exact DateFormatChecker_spec|]. split; reflexivity.
Qed.

(** ** The registry: how the calls compose *)

Lemma chain_eq (c c' : FormatCheckerChain) : formatters c = formatters c' -> c = c'.
Proof. destruct c, c'. simpl. intros ->. reflexivity. Qed.

(** X1.  [Add(name, f)] binds [name] and nothing else: [Has(name)] is true
    afterwards, and for every other name [Has] and [IsFormat] answer as
    before. *)
Theorem Add_binds_only_name
    (c : FormatCheckerChain) (name : string) (T : Type) (I : FormatChecker T) (f : T) :
  let c' := after (FormatCheckerChain.Add name f) c in
  result (FormatCheckerChain.Has name) c' = true
  /\ (forall other : string,
        other <> name ->
        result (FormatCheckerChain.Has other) c'
        = result (FormatCheckerChain.Has other) c
        /\ (forall input : value,
              result (FormatCheckerChain.IsFormat other input) c'
              = result (FormatCheckerChain.IsFormat other input) c)).
Proof.
  intros c'. split.
  - rewrite Has_result. apply bool_decide_eq_true.
    unfold c'. rewrite Add_formatters, lookup_insert_eq. eauto.
  - intros other Hne.
    assert (E : formatters c' !! other = formatters c !! other).
    { unfold c'. rewrite Add_formatters. apply lookup_insert_ne. congruence. }
    split.
    + rewrite !Has_result, E. reflexivity.
    + intros input. rewrite !IsFormat_result, E. reflexivity.
Qed.

(** X2.  A second [Add] under the same name replaces the first: the
    registry is the one that the second [Add] alone gives, whatever the
    types of the two checkers. *)
Theorem Add_overwrites
    (c : FormatCheckerChain) (name : string)
    (T U : Type) (I : FormatChecker T) (J : FormatChecker U) (f : T) (g : U) :
  after (FormatCheckerChain.Add name g) (after (FormatCheckerChain.Add name f) c)
  = after (FormatCheckerChain.Add name g) c.
Proof. apply chain_eq. rewrite !Add_formatters. apply insert_insert_eq. Qed.

(** X3.  [Remove] of a name that is not registered leaves the registry as
    it is. *)
Theorem Remove_unregistered (c : FormatCheckerChain) (name : string) :
  result (FormatCheckerChain.Has name) c = false ->
  after (FormatCheckerChain.Remove name) c = c.
Proof.
  intros Hno. apply Has_false_iff in Hno. apply chain_eq.
  rewrite Remove_formatters. apply delete_id, Hno.
Qed.

(** The theorem at the empty registry. *)
Lemma Remove_unregistered_witness :
  after (FormatCheckerChain.Remove "date") (mkFormatCheckerChain ∅)
  = mkFormatCheckerChain ∅.
Proof. apply (Remove_unregistered (mkFormatCheckerChain ∅) "date"). reflexivity. Defined.

(** X4.  After [Remove(name)] every input passes [IsFormat(name, input)],
    whatever checker was bound to the name, and the other names answer as
    before. *)
Theorem Remove_passes_everything (c : FormatCheckerChain) (name : string) :
  let c' := after (FormatCheckerChain.Remove name) c in
  (forall input : value, result (FormatCheckerChain.IsFormat name input) c' = true)
  /\ (forall other : string,
        other <> name ->
        result (FormatCheckerChain.Has other) c'
        = result (FormatCheckerChain.Has other) c
        /\ (forall input : value,
              result (FormatCheckerChain.IsFormat other input) c'
              = result (FormatCheckerChain.IsFormat other input) c)).
Proof.
  intros c'. split.
  - intros input. rewrite IsFormat_result. unfold c'.
    rewrite Remove_formatters, lookup_delete_eq. reflexivity.
  - intros other Hne.
    assert (E : formatters c' !! other = formatters c !! other).
    { unfold c'. rewrite Remove_formatters. apply lookup_delete_ne. congruence. }
    split.
    + rewrite !Has_result, E. reflexivity.
    + intros input. rewrite !IsFormat_result, E. reflexivity.
Qed.

(** X5.  Calls on two different names commute: two [Add]s, an [Add] and a
    [Remove], and two [Remove]s leave the same registry in either order. *)
Theorem calls_on_distinct_names_commute
    (c : FormatCheckerChain) (n1 n2 : string)
    (T U : Type) (I : FormatChecker T) (J : FormatChecker U) (f : T) (g : U) :
  n1 <> n2 ->
  after (FormatCheckerChain.Add n2 g) (after (FormatCheckerChain.Add n1 f) c)
  = after (FormatCheckerChain.Add n1 f) (after (FormatCheckerChain.Add n2 g) c)
  /\ after (FormatCheckerChain.Remove n2) (after (FormatCheckerChain.Add n1 f) c)
     = after (FormatCheckerChain.Add n1 f) (after (FormatCheckerChain.Remove n2) c)
  /\ after (FormatCheckerChain.Remove n2) (after (FormatCheckerChain.Remove n1) c)
     = after (FormatCheckerChain.Remove n1) (after (FormatCheckerChain.Remove n2) c).
Proof.
  intros Hne. repeat split; apply chain_eq;
    rewrite ?Add_formatters, ?Remove_formatters, ?Add_formatters.
  - apply insert_insert_ne. congruence.
  - apply delete_insert_ne. congruence.
  - apply delete_delete.
Qed.

(** The theorem at the names [date] and [time] on the empty registry. *)
Lemma calls_on_distinct_names_commute_witness :
  after (FormatCheckerChain.Remove "time")
        (after (FormatCheckerChain.Add "date" mkDateFormatChecker)
               (mkFormatCheckerChain ∅))
  = after (FormatCheckerChain.Add "date" mkDateFormatChecker)
          (after (FormatCheckerChain.Remove "time") (mkFormatCheckerChain ∅)).
Proof.
  apply (calls_on_distinct_names_commute (mkFormatCheckerChain ∅) "date" "time"
           _ _ _ _ mkDateFormatChecker mkDateFormatChecker).
  discriminate.
Defined.

Section Defaults.
Context `{Primitives}.

(** X6.  The registry [FormatCheckers] holds seventeen names, and [Has]
    is true of these and of no other name. *)
Theorem FormatCheckers_names (name : string) :
  result (FormatCheckerChain.Has name) FormatCheckers = true
  <-> In name
        ["date"; "time"; "date-time"; "hostname"; "email"; "idn-email"; "ipv4";
         "ipv6"; "uri"; "uri-reference"; "iri"; "iri-reference"; "uri-template";
         "uuid"; "regex"; "json-pointer"; "relative-json-pointer"].
Proof.
  rewrite Has_result, bool_decide_eq_true, <- not_eq_None_Some.
  unfold FormatCheckers; simpl formatters.
  pose proof (not_elem_of_list_to_map (M := gmap string) builtin name) as E.
  rewrite <- E, <- list_elem_of_In.
  change (builtin.*1) with
    ["date"; "time"; "date-time"; "hostname"; "email"; "idn-email"; "ipv4";
     "ipv6"; "uri"; "uri-reference"; "iri"; "iri-reference"; "uri-template";
     "uuid"; "regex"; "json-pointer"; "relative-json-pointer"].
  split; [apply dec_stable|auto].
Qed.

(** X7.  In [FormatCheckers] the names [iri], [iri-reference] and
    [idn-email] are bound to the checkers of [uri], [uri-reference] and
    [email]: the verdicts are the same on every input. *)
Theorem FormatCheckers_aliases (input : value) :
  result (FormatCheckerChain.IsFormat "iri" input) FormatCheckers
  = result (FormatCheckerChain.IsFormat "uri" input) FormatCheckers
  /\ result (FormatCheckerChain.IsFormat "iri-reference" input) FormatCheckers
     = result (FormatCheckerChain.IsFormat "uri-reference" input) FormatCheckers
  /\ result (FormatCheckerChain.IsFormat "idn-email" input) FormatCheckers
     = result (FormatCheckerChain.IsFormat "email" input) FormatCheckers.
Proof. repeat split; rewrite !IsFormat_result; reflexivity. Qed.

End Defaults.

(** ** The matcher and the languages of the patterns *)

Lemma append_nil_r (s : string) : s +:+ "" = s.
Proof. induction s as [|c s IH]; [reflexivity|]. rewrite append_cons, IH. reflexivity. Qed.

Lemma append_eq_nil (s t : string) : s +:+ t = "" -> s = "" /\ t = "".
Proof. destruct s; [auto|discriminate]. Qed.

Lemma append_eq_cons (s t u : string) (c : ascii) :
  s +:+ t = String c u ->
  (s = "" /\ t = String c u) \/ (exists s', s = String c s' /\ u = s' +:+ t).
Proof.
  destruct s as [|a s']; [auto|].
  rewrite append_cons. intros [= -> <-]. right. eauto.
Qed.

Lemma ranges_eqb_eq (x y : list (ascii * ascii)) : ranges_eqb x y = true -> x = y.
Proof.
  revert y. induction x as [|[a b] x IH]; intros [|[c d] y]; simpl; try discriminate;
    [reflexivity|].
  rewrite !andb_true_iff. unfold eqc. rewrite !Ascii.eqb_eq.
  intros [[-> ->] E]. rewrite (IH _ E). reflexivity.
Qed.

Lemma class_eqb_eq (x y : class) : class_eqb x y = true -> x = y.
Proof.
  destruct x as [nx rx], y as [ny ry]. unfold class_eqb; simpl.
  rewrite andb_true_iff. intros [En Er].
  apply Bool.eqb_prop in En. apply ranges_eqb_eq in Er. congruence.
Qed.

Lemma re_eqb_eq (x y : re) : re_eqb x y = true -> x = y.
Proof.
  revert y. induction x as [| |k|a IHa b IHb|a IHa b IHb|a IHa]; intros [];
    simpl; try discriminate; try reflexivity.
  - intros E. apply class_eqb_eq in E. congruence.
  - rewrite andb_true_iff. intros [E1 E2]. rewrite (IHa _ E1), (IHb _ E2). reflexivity.
  - rewrite andb_true_iff. intros [E1 E2]. rewrite (IHa _ E1), (IHb _ E2). reflexivity.
  - intros E. rewrite (IHa _ E). reflexivity.
Qed.

Lemma lang_alt (a b : re) (s : string) : lang (alt a b) s <-> lang a s \/ lang b s.
Proof.
  assert (G : forall x y, lang (if re_eqb x y then x else Alt x y) s <->
                          lang x s \/ lang y s).
  { intros x y. destruct (re_eqb x y) eqn:E; [|reflexivity].
    apply re_eqb_eq in E. subst y. tauto. }
  destruct a; destruct b; try apply G; simpl; tauto.
Qed.

Lemma lang_cat (a b : re) (s : string) :
  lang (cat a b) s <-> exists s1 s2, s = s1 +:+ s2 /\ lang a s1 /\ lang b s2.
Proof.
  destruct a; simpl; try reflexivity.
  - split; [tauto|]. intros (s1 & s2 & _ & [] & _).
  - split.
    + intros Hb. exists "", s. auto.
    + intros (s1 & s2 & -> & -> & Hb). exact Hb.
Qed.

Lemma nullable_lang (r : re) : nullable r = true <-> lang r "".
Proof.
  induction r as [| |k|a IHa b IHb|a IHa b IHb|a IHa]; simpl.
  - split; [discriminate|tauto].
  - tauto.
  - split; [discriminate|]. intros (c & E & _). discriminate.
  - rewrite andb_true_iff, IHa, IHb. split.
    + intros [Ha Hb]. exists "", "". auto.
    + intros (s1 & s2 & E & Ha & Hb). symmetry in E.
      apply append_eq_nil in E as [-> ->]. auto.
  - rewrite orb_true_iff, IHa, IHb. reflexivity.
  - split; [intros _; constructor|reflexivity].
Qed.

Lemma star_cons_inv (L : string -> Prop) (c : ascii) (s : string) :
  star L (String c s) ->
  exists s1 s2, s = s1 +:+ s2 /\ L (String c s1) /\ star L s2.
Proof.
  intros H. remember (String c s) as t eqn:Et. revert s Et.
  induction H as [|s1 s2 H1 H2 IH]; intros s Et; [discriminate|].
  apply append_eq_cons in Et as [[-> ->]|(s1' & -> & ->)].
  - apply IH. reflexivity.
  - eauto.
Qed.

Lemma deriv_lang (c : ascii) (r : re) :
  forall s : string, lang (deriv c r) s <-> lang r (String c s).
Proof.
  induction r as [| |k|a IHa b IHb|a IHa b IHb|a IHa]; intros s; simpl.
  - tauto.
  - split; [tauto|discriminate].
  - destruct (in_class k c) eqn:E; simpl.
    + split.
      * intros ->. eauto.
      * intros (c' & [= -> ->] & _). reflexivity.
    + split; [tauto|]. intros (c' & [= -> ->] & E'). congruence.
  - rewrite lang_alt, lang_cat. split.
    + intros [(s1 & s2 & -> & Ha & Hb)|Hn].
      * exists (String c s1), s2. rewrite <- IHa. auto.
      * destruct (nullable a) eqn:En; [|destruct Hn].
        apply nullable_lang in En. apply IHb in Hn.
        exists "", (String c s). auto.
    + intros (s1 & s2 & E & Ha & Hb). symmetry in E.
      apply append_eq_cons in E as [[-> ->]|(s1' & -> & ->)].
      * right. apply nullable_lang in Ha. rewrite Ha. apply IHb, Hb.
      * left. exists s1', s2. rewrite IHa. auto.
  - rewrite lang_alt, IHa, IHb. reflexivity.
  - rewrite lang_cat. split.
    + intros (s1 & s2 & -> & Ha & Hs). apply IHa in Ha.
      change (String c (s1 +:+ s2)) with (String c s1 +:+ s2).
      constructor; assumption.
    + intros H. apply star_cons_inv in H as (s1 & s2 & -> & Ha & Hs).
      exists s1, s2. rewrite IHa. auto.
Qed.

Lemma matches_lang (r : re) (s : string) : matches r s = true <-> lang r s.
Proof.
  revert r. induction s as [|c s IH]; intros r; simpl.
  - apply nullable_lang.
  - rewrite IH. apply deriv_lang.
Qed.

Lemma lang_Lit (c : ascii) (s : string) : lang (Lit c) s <-> s = String c "".
Proof.
  unfold Lit. simpl. split.
  - intros (c' & -> & E). rewrite in_class_Lit in E.
    unfold eqc in E. apply Ascii.eqb_eq in E. subst. reflexivity.
  - intros ->. exists c. split; [reflexivity|]. rewrite in_class_Lit.
    unfold eqc. apply Ascii.eqb_refl.
Qed.

Lemma lang_Rep_Class (k : class) (n : nat) (s : string) :
  lang (Rep n (Class k)) s <-> len s = n /\ every (in_class k) s = true.
Proof.
  revert s. induction n as [|n IH]; intros s; simpl.
  - split.
    + intros ->. auto.
    + intros [E _]. destruct s; [reflexivity|discriminate].
  - split.
    + intros (s1 & s2 & -> & (c & -> & Hc) & H2).
      apply IH in H2 as [Hl He].
      change (String c "" +:+ s2) with (String c s2). simpl.
      rewrite Hc, He. unfold len in *. simpl. auto.
    + intros [Hl He]. destruct s as [|c s]; [discriminate|].
      simpl in He. apply andb_true_iff in He as [Hc He].
      exists (String c ""), s. repeat split.
      * eauto.
      * apply IH. unfold len in *. simpl in Hl. split; [lia|exact He].
Qed.

Lemma lang_Star_Class (k : class) (s : string) :
  lang (Star (Class k)) s <-> every (in_class k) s = true.
Proof.
  simpl. split.
  - induction 1 as [|s1 s2 (c & -> & Hc) _ IH]; [reflexivity|].
    change (String c "" +:+ s2) with (String c s2). simpl. rewrite Hc. exact IH.
  - induction s as [|c s IH]; simpl; [constructor|].
    rewrite andb_true_iff. intros [Hc He].
    change (String c s) with (String c "" +:+ s).
    constructor; [exists c; auto|auto].
Qed.

Lemma in_class_hexLower (c : ascii) :
  in_class (mkClass false [("a", "f"); ("0", "9")]%char) c = lowerHex c.
Proof. unfold in_class, lowerHex. simpl. rewrite orb_false_r. reflexivity. Qed.

Lemma every_ext (p q : ascii -> bool) (s : string) :
  (forall c, p c = q c) -> every p s = every q s.
Proof. intros E. induction s as [|c s IH]; simpl; [reflexivity|]. rewrite E, IH. reflexivity. Qed.

Lemma lang_hexGroup (n : nat) (s : string) : lang (Rep n hexLower) s <-> hexGroup n s.
Proof.
  unfold hexLower, hexGroup. rewrite lang_Rep_Class.
  rewrite (every_ext _ _ s in_class_hexLower). reflexivity.
Qed.

(** X8.  The [uuid] checker accepts exactly the strings of five groups of
    8, 4, 4, 4 and 12 hexadecimal digits with a hyphen between them, with
    the letters [a] to [f] in lower case only. *)
Theorem UUIDFormatChecker_shape (s : string) :
  IsFormat mkUUIDFormatChecker (VString s) = true <->
  exists a b c d e : string,
    s = a +:+ "-" +:+ b +:+ "-" +:+ c +:+ "-" +:+ d +:+ "-" +:+ e
    /\ hexGroup 8 a /\ hexGroup 4 b /\ hexGroup 4 c /\ hexGroup 4 d
    /\ hexGroup 12 e.
Proof.
  unfold IsFormat, UUIDFormatChecker_IsFormat. simpl as_string. cbv beta iota zeta.
  assert (E : (if negb (MatchString rxUUID s) then false else true) = true
              <-> lang (body rxUUID) s).
  { unfold MatchString. rewrite <- matches_lang. destruct (matches _ s); simpl; split; auto. }
  rewrite E. unfold rxUUID, body.
  cbn [lang]. split.
  - intros (a & r1 & -> & Ha & d1 & r2 & -> & Hd1 & b & r3 & -> & Hb &
            d2 & r4 & -> & Hd2 & c & r5 & -> & Hc & d3 & r6 & -> & Hd3 &
            d & r7 & -> & Hd & d4 & e & -> & Hd4 & He).
    apply lang_Lit in Hd1, Hd2, Hd3, Hd4. subst.
    exists a, b, c, d, e. rewrite <- !lang_hexGroup. repeat split; assumption.
  - intros (a & b & c & d & e & -> & Ha & Hb & Hc & Hd & He).
    rewrite <- lang_hexGroup in Ha, Hb, Hc, Hd, He.
    exists a, ("-" +:+ b +:+ "-" +:+ c +:+ "-" +:+ d +:+ "-" +:+ e).
    split; [reflexivity|]. split; [exact Ha|].
    exists "-", (b +:+ "-" +:+ c +:+ "-" +:+ d +:+ "-" +:+ e).
    split; [reflexivity|]. split; [apply lang_Lit; reflexivity|].
    exists b, ("-" +:+ c +:+ "-" +:+ d +:+ "-" +:+ e).
    split; [reflexivity|]. split; [exact Hb|].
    exists "-", (c +:+ "-" +:+ d +:+ "-" +:+ e).
    split; [reflexivity|]. split; [apply lang_Lit; reflexivity|].
    exists c, ("-" +:+ d +:+ "-" +:+ e).
    split; [reflexivity|]. split; [exact Hc|].
    exists "-", (d +:+ "-" +:+ e).
    split; [reflexivity|]. split; [apply lang_Lit; reflexivity|].
    exists d, ("-" +:+ e).
    split; [reflexivity|]. split; [exact Hd|].
    exists "-", e.
    split; [reflexivity|]. split; [apply lang_Lit; reflexivity|exact He].
Qed.

Lemma matches_Fail (s : string) : matches Fail s = false.
Proof. induction s as [|c s IH]; [reflexivity|exact IH]. Qed.

Lemma deriv_ptr (c : ascii) :
  deriv c jsonPointerBody = (if eqc c "/" then ptrToken else Fail)
  /\ deriv c ptrToken = (if eqc c "~" then ptrTilde else ptrToken)
  /\ deriv c ptrTilde = (if eqc c "0" || eqc c "1" then ptrToken else Fail).
Proof.
  destruct c as [[] [] [] [] [] [] [] []]; repeat split; vm_compute; reflexivity.
Qed.

Lemma matches_ptr (s : string) :
  matches ptrToken s = scanTokens false s
  /\ matches ptrTilde s = scanTokens true s.
Proof.
  induction s as [|c s (IH0 & IH1)]; [split; reflexivity|].
  destruct (deriv_ptr c) as (_ & D1 & D2).
  cbn [matches scanTokens]. rewrite D1, D2.
  destruct (eqc c "~"), (eqc c "0" || eqc c "1"); cbn [andb];
    rewrite ?matches_Fail; auto.
Qed.

Lemma rxJSONPointer_language (s : string) :
  MatchString rxJSONPointer s =
  match s with
  | EmptyString => true
  | String c s' => eqc c "/" && scanTokens false s'
  end.
Proof.
  unfold MatchString, rxJSONPointer, body. destruct s as [|c s]; [reflexivity|].
  cbn [matches]. destruct (deriv_ptr c) as (D0 & _). rewrite D0.
  destruct (eqc c "/"); cbn [andb]; [apply matches_ptr|apply matches_Fail].
Qed.

Lemma eqc_eq (a b : ascii) : eqc a b = true <-> a = b.
Proof. unfold eqc. apply Ascii.eqb_eq. Qed.

Lemma scanTokens_spec (s : string) (tilde : bool) :
  scanTokens tilde s = true <->
  (tilde = true ->
   exists c post', s = String c post' /\ (c = "0" \/ c = "1")%char)
  /\ tildesEscaped s.
Proof.
  revert tilde. induction s as [|c s IH]; intros tilde.
  - cbn [scanTokens]. split.
    + intros E. destruct tilde; [discriminate|]. split; [discriminate|].
      intros pre post E'. destruct pre; discriminate.
    + intros [Ht _]. destruct tilde; [|reflexivity].
      destruct Ht as (c & p & E & _); [reflexivity|discriminate].
  - cbn [scanTokens]. destruct tilde.
    + rewrite andb_true_iff, orb_true_iff, !eqc_eq, IH. split.
      * intros (Hc & _ & Hs). split; [eauto|].
        intros pre post E. destruct pre as [|a pre].
        -- change ("" +:+ String "~" post) with (String "~" post) in E.
           injection E as -> ->. destruct Hc; discriminate.
        -- rewrite append_cons in E. injection E as -> ->. eapply Hs. reflexivity.
      * intros [Ht Hs]. destruct Ht as (c' & p & [= <- <-] & Hc); [reflexivity|].
        split; [exact Hc|]. split; [discriminate|].
        intros pre post E. apply (Hs (String c pre) post).
        rewrite append_cons, E. reflexivity.
    + rewrite IH. split.
      * intros [Ht Hs]. split; [discriminate|].
        intros pre post E. destruct pre as [|a pre].
        -- change ("" +:+ String "~" post) with (String "~" post) in E.
           injection E as -> ->. apply Ht. reflexivity.
        -- rewrite append_cons in E. injection E as -> ->. eapply Hs. reflexivity.
      * intros [_ Hs]. split.
        -- intros E. apply eqc_eq in E. subst c. apply (Hs "" s). reflexivity.
        -- intros pre post E. apply (Hs (String c pre) post).
           rewrite append_cons, E. reflexivity.
Qed.

(** X9.  The [json-pointer] checker accepts exactly the strings that are
    empty or begin with [/], and in which every [~] is followed by [0] or
    by [1]. *)
Theorem JSONPointerFormatChecker_shape (s : string) :
  IsFormat mkJSONPointerFormatChecker (VString s) = true <->
  (s = "" \/ exists s', s = String "/" s') /\ tildesEscaped s.
Proof.
  unfold IsFormat, JSONPointerFormatChecker_IsFormat. simpl as_string. cbv beta iota.
  rewrite rxJSONPointer_language. destruct s as [|c s].
  - split; [|reflexivity]. intros _. split; [auto|].
    intros pre post E. destruct pre; discriminate.
  - rewrite andb_true_iff, eqc_eq, scanTokens_spec. split.
    + intros (-> & _ & Hs). split; [eauto|].
      intros pre post E. destruct pre as [|a pre].
      * discriminate.
      * rewrite append_cons in E. injection E as _ Es. eapply Hs. exact Es.
    + intros [[E|(s' & [= -> ->])] Hs]; [discriminate|].
      split; [reflexivity|]. split; [discriminate|].
      intros pre post E. apply (Hs (String "/" pre) post).
      rewrite append_cons, E. reflexivity.
Qed.

Lemma in_class_range (lo hi c : ascii) :
  in_class (mkClass false [(lo, hi)]) c = between lo hi c.
Proof. unfold in_class. simpl. apply orb_false_r. Qed.

Lemma lang_canonicalNat (s : string) :
  lang (Alt (Lit "0")
            (Cat (Class (mkClass false [("1", "9")]%char))
                 (Star (Class (mkClass false [("0", "9")]%char))))) s
  <-> canonicalNat s = true.
Proof.
  cbn [lang]. rewrite lang_Lit. unfold canonicalNat. split.
  - intros [->|(s1 & s2 & -> & (c & -> & Hc) & Hs)]; [reflexivity|].
    change (String c "" +:+ s2) with (String c s2). cbv beta iota.
    apply (lang_Star_Class _ s2) in Hs.
    rewrite in_class_range in Hc.
    rewrite (every_ext _ _ s2 (in_class_range "0" "9")) in Hs.
    rewrite Hc, Hs. apply orb_true_r.
  - destruct s as [|c ds]; [discriminate|].
    rewrite orb_true_iff, !andb_true_iff, eqc_eq, Nat.eqb_eq.
    intros [[-> E]|[Hc Hs]].
    + left. destruct ds; [reflexivity|discriminate].
    + right. exists (String c ""), ds. split; [reflexivity|]. split.
      * exists c. rewrite in_class_range. auto.
      * apply (lang_Star_Class _ ds).
        rewrite (every_ext _ _ ds (in_class_range "0" "9")). exact Hs.
Qed.

(** X10.  The [relative-json-pointer] checker accepts exactly a decimal
    numeral without leading zeros followed by [#] or by a string that the
    [json-pointer] checker accepts; the latter may be empty, so a numeral
    alone is accepted. *)
Theorem RelativeJSONPointerFormatChecker_shape (s : string) :
  IsFormat mkRelativeJSONPointerFormatChecker (VString s) = true <->
  exists n rest : string,
    s = n +:+ rest /\ canonicalNat n = true
    /\ (rest = "#" \/ IsFormat mkJSONPointerFormatChecker (VString rest) = true).
Proof.
  unfold IsFormat, RelativeJSONPointerFormatChecker_IsFormat,
    JSONPointerFormatChecker_IsFormat.
  simpl as_string. cbv beta iota.
  unfold MatchString. rewrite matches_lang.
  unfold rxRelJSONPointer, rxJSONPointer, body. cbn [lang]. split.
  - intros (n & rest & -> & Hn & Hr). exists n, rest.
    split; [reflexivity|]. split; [apply lang_canonicalNat, Hn|].
    destruct Hr as [Hr|Hr].
    + left. apply lang_Lit, Hr.
    + right. apply matches_lang, Hr.
  - intros (n & rest & -> & Hn & Hr). exists n, rest.
    split; [reflexivity|]. split; [apply lang_canonicalNat, Hn|].
    destruct Hr as [->|Hr].
    + left. apply lang_Lit. reflexivity.
    + right. apply matches_lang, Hr.
Qed.

Lemma len_append (s t : string) : len (s +:+ t) = (len s + len t)%nat.
Proof.
  induction s as [|c s IH]; [reflexivity|].
  rewrite append_cons. unfold len in *. simpl. rewrite IH. reflexivity.
Qed.

Lemma every_append (p : ascii -> bool) (s t : string) :
  every p (s +:+ t) = every p s && every p t.
Proof.
  induction s as [|c s IH]; [reflexivity|].
  rewrite append_cons. simpl. rewrite IH. apply andb_assoc.
Qed.

Lemma lang_UpTo_Class (k : class) (n : nat) (s : string) :
  lang (UpTo n (Class k)) s <-> (len s <= n)%nat /\ every (in_class k) s = true.
Proof.
  revert s. induction n as [|n IH]; intros s.
  - cbn [UpTo lang]. split.
    + intros ->. split; [reflexivity|reflexivity].
    + intros [E _]. destruct s; [reflexivity|]. unfold len in E. simpl in E. lia.
  - cbn [UpTo Opt lang]. split.
    + intros [(s1 & s2 & -> & (c & -> & Hc) & H2)| ->].
      * apply IH in H2 as [Hl He].
        change (String c "" +:+ s2) with (String c s2). simpl.
        rewrite Hc, He. unfold len in *. simpl. split; [lia|reflexivity].
      * split; [unfold len; simpl; lia|reflexivity].
    + intros [Hl He]. destruct s as [|c s]; [right; reflexivity|left].
      simpl in He. apply andb_true_iff in He as [Hc He].
      exists (String c ""), s. split; [reflexivity|]. split; [eauto|].
      apply IH. unfold len in *. simpl in Hl. split; [lia|exact He].
Qed.

Lemma in_class_alnum (c : ascii) :
  in_class (mkClass false [("a", "z"); ("A", "Z"); ("0", "9")]%char) c = isAlnum c.
Proof.
  unfold in_class, isAlnum. simpl. rewrite orb_false_r, orb_assoc. reflexivity.
Qed.

Lemma in_class_alnumHyphen (c : ascii) :
  in_class (mkClass false [("a", "z"); ("A", "Z"); ("0", "9"); ("-", "-")]%char) c
  = isAlnumHyphen c.
Proof.
  unfold in_class, isAlnumHyphen, isAlnum. simpl.
  rewrite between_same, orb_false_r, !orb_assoc. reflexivity.
Qed.

Lemma lastByte_snoc (a z : ascii) (mid : string) :
  lastByte a (mid +:+ String z "") = z.
Proof.
  revert a. induction mid as [|c mid IH]; intros a; [reflexivity|].
  rewrite append_cons. simpl. apply IH.
Qed.

Lemma snoc_lastByte (a c : ascii) (r : string) :
  exists mid, String c r = mid +:+ String (lastByte a (String c r)) "".
Proof.
  revert a c. induction r as [|d r IH]; intros a c.
  - exists "". reflexivity.
  - destruct (IH c d) as (mid & E). exists (String c mid).
    rewrite append_cons. simpl lastByte in *. rewrite <- E. reflexivity.
Qed.

Lemma lang_hostLabel (l : string) : lang hostLabel l <-> hostLabelOK l = true.
Proof.
  unfold hostLabel, alnum, alnumHyphen. cbn [lang]. split.
  - intros [(a & -> & Ha)|(s1 & s2 & -> & (a & -> & Ha) & mid & s3 & -> & Hm
                            & (z & -> & Hz))];
      rewrite in_class_alnum in *.
    + simpl. rewrite Ha. reflexivity.
    + apply lang_UpTo_Class in Hm as [Hl He].
      rewrite (every_ext _ _ mid in_class_alnumHyphen) in He.
      change (String a "" +:+ mid +:+ String z "")
        with (String a (mid +:+ String z "")).
      unfold hostLabelOK. rewrite lastByte_snoc, every_append, len_append, Ha, Hz, He.
      simpl. unfold isAlnumHyphen. rewrite Hz. simpl.
      apply Nat.leb_le. change (len (String z "")) with 1%nat. lia.
  - destruct l as [|a r]; [discriminate|]. unfold hostLabelOK.
    rewrite !andb_true_iff, Nat.leb_le. intros [[[Ha Hz] He] Hl].
    destruct r as [|c r].
    + left. exists a. rewrite in_class_alnum. auto.
    + right. destruct (snoc_lastByte a c r) as (mid & E).
      simpl lastByte in Hz, E. rewrite E in He, Hl |- *.
      rewrite every_append in He. rewrite len_append in Hl.
      apply andb_true_iff in He as [He _].
      exists (String a ""), (mid +:+ String (lastByte c r) "").
      split; [reflexivity|]. split; [exists a; rewrite in_class_alnum; auto|].
      exists mid, (String (lastByte c r) ""). split; [reflexivity|]. split.
      * apply lang_UpTo_Class.
        rewrite (every_ext _ _ mid in_class_alnumHyphen).
        change (len (String (lastByte c r) "")) with 1%nat in Hl.
        split; [lia|exact He].
      * exists (lastByte c r). rewrite in_class_alnum. auto.
Qed.

Lemma splitDots_join (s : string) :
  s = (splitDots s).1 +:+ dotted (splitDots s).2.
Proof.
  induction s as [|c s IH]; [reflexivity|].
  cbn [splitDots]. destruct (splitDots s) as [l ls]. simpl in IH.
  destruct (eqc c ".") eqn:E; simpl.
  - apply eqc_eq in E. subst c. change ("" +:+ ?x) with x. rewrite <- IH. reflexivity.
  - rewrite append_cons, <- IH. reflexivity.
Qed.

Lemma splitDots_dotted (ls : list string) :
  Forall (fun l => every noDot l = true) ls ->
  forall l0 : string,
    every noDot l0 = true -> splitDots (l0 +:+ dotted ls) = (l0, ls).
Proof.
  induction 1 as [|l1 ls H1 Hls IH]; intros l0 H0.
  - simpl dotted. induction l0 as [|c l0 IHl]; [reflexivity|].
    rewrite append_cons. simpl in H0. apply andb_true_iff in H0 as [Hc H0].
    cbn [splitDots]. rewrite (IHl H0). unfold noDot in Hc.
    destruct (eqc c "."); [discriminate|reflexivity].
  - induction l0 as [|c l0 IHl].
    + change ("" +:+ ?x) with x. cbn [dotted splitDots].
      rewrite (IH l1 H1). reflexivity.
    + rewrite append_cons. simpl in H0. apply andb_true_iff in H0 as [Hc H0].
      cbn [splitDots]. rewrite (IHl H0). unfold noDot in Hc.
      destruct (eqc c "."); [discriminate|reflexivity].
Qed.

Lemma isAlnumHyphen_noDot (c : ascii) : isAlnumHyphen c = true -> noDot c = true.
Proof.
  unfold noDot. destruct (eqc c ".") eqn:E; [|reflexivity].
  apply eqc_eq in E. subst c. vm_compute. discriminate.
Qed.

Lemma every_impl (p q : ascii -> bool) (s : string) :
  (forall c, p c = true -> q c = true) -> every p s = true -> every q s = true.
Proof.
  intros Hpq. induction s as [|c s IH]; simpl; [reflexivity|].
  rewrite !andb_true_iff. intros [Hc Hs]. auto.
Qed.

Lemma hostLabelOK_noDot (l : string) : hostLabelOK l = true -> every noDot l = true.
Proof.
  destruct l as [|a r]; [discriminate|]. unfold hostLabelOK.
  rewrite !andb_true_iff. intros [[[Ha _] He] _]. simpl.
  rewrite (isAlnumHyphen_noDot a); [|unfold isAlnumHyphen; rewrite Ha; reflexivity].
  apply (every_impl _ _ r isAlnumHyphen_noDot He).
Qed.

Lemma lang_dotted (t : string) :
  star (lang (Cat (Lit ".") hostLabel)) t <->
  exists ls, t = dotted ls /\ Forall (fun l => hostLabelOK l = true) ls.
Proof.
  split.
  - induction 1 as [|s1 s2 (d & l & -> & Hd & Hl) _ (ls & -> & Hls)].
    + exists []. auto.
    + apply lang_Lit in Hd. subst d. apply lang_hostLabel in Hl.
      exists (l :: ls). split; [|constructor; assumption].
      change (String "." "" +:+ l) with (String "." l).
      rewrite append_cons. reflexivity.
  - intros (ls & -> & Hls). induction Hls as [|l ls Hl _ IH]; [constructor|].
    cbn [dotted]. change (String "." (l +:+ dotted ls))
      with (String "." "" +:+ (l +:+ dotted ls)).
    rewrite <- append_assoc. constructor; [|exact IH].
    exists ".", l. split; [reflexivity|]. split; [apply lang_Lit; reflexivity|].
    apply lang_hostLabel, Hl.
Qed.

Lemma rxHostname_language (s : string) :
  MatchString rxHostname s = forallb hostLabelOK (labels s).
Proof.
  apply eq_true_iff_eq. unfold MatchString. rewrite matches_lang.
  unfold rxHostname, body, labels. cbn [lang]. split.
  - intros (l0 & t & -> & H0 & Ht).
    apply lang_hostLabel in H0. apply lang_dotted in Ht as (ls & -> & Hls).
    rewrite (splitDots_dotted ls).
    + cbn [forallb]. rewrite H0. apply forallb_forall.
      intros l Hl. exact (proj1 (List.Forall_forall _ _) Hls l Hl).
    + exact (List.Forall_impl _ hostLabelOK_noDot Hls).
    + apply hostLabelOK_noDot, H0.
  - pose proof (splitDots_join s) as E. destruct (splitDots s) as [l0 ls].
    simpl in E. cbn [forallb]. rewrite andb_true_iff. intros [H0 Hls].
    exists l0, (dotted ls). split; [exact E|]. split; [apply lang_hostLabel, H0|].
    apply lang_dotted. exists ls. split; [reflexivity|].
    apply List.Forall_forall. intros l Hl.
    exact (proj1 (forallb_forall _ _) Hls l Hl).
Qed.

(** X11.  The [hostname] checker accepts a string exactly when it is
    shorter than 256 bytes and each of its parts between dots is a label: 1
    to 63 letters, digits and hyphens, with no hyphen first or last.  So the
    empty string, an empty label and a dot at either end are refused. *)
Theorem HostnameFormatChecker_shape (s : string) :
  IsFormat mkHostnameFormatChecker (VString s)
  = forallb hostLabelOK (labels s) && (len s <? 256)%nat.
Proof.
  unfold IsFormat, HostnameFormatChecker_IsFormat. simpl as_string. cbv beta iota.
  rewrite rxHostname_language. reflexivity.
Qed.

(** ** Relations between the checkers *)

(** X12.  Every input that the [uri] checker or the [uri-template] checker
    accepts is accepted by the [uri-reference] checker. *)
Theorem uri_reference_accepts_uris_and_templates (v : value) :
  IsFormat mkURIFormatChecker v = true \/ IsFormat mkURITemplateFormatChecker v = true ->
  IsFormat mkURIReferenceFormatChecker v = true.
Proof.
  unfold IsFormat, URIFormatChecker_IsFormat, URITemplateFormatChecker_IsFormat,
    URIReferenceFormatChecker_IsFormat.
  destruct (as_string v) as [s|]; [|intros [E|E]; discriminate E].
  destruct (url.Parse s) as [u|]; [|intros [E|E]; discriminate E].
  destruct (strings.Contains s backslash).
  - destruct (String.eqb (url.Scheme u) ""); intros [E|E]; discriminate E.
  - reflexivity.
Qed.

(** The theorem at a URI with a template expression. *)
Lemma uri_reference_accepts_uris_and_templates_witness :
  IsFormat mkURIReferenceFormatChecker (VString "http://example.com/{id}") = true.
Proof.
  apply (uri_reference_accepts_uris_and_templates (VString "http://example.com/{id}")).
  left. reflexivity.
Defined.

Lemma ParseIP_scan_separator (whole s : string) :
  net.ParseIP_scan whole s <> None ->
  strings.Contains s "." || strings.Contains s ":" = true.
Proof.
  induction s as [|c s IH]; [intros E; contradiction E; reflexivity|].
  cbn [net.ParseIP_scan]. rewrite !Contains_cons.
  destruct (eqc c "."); [reflexivity|].
  destruct (eqc c ":"); [intros _; apply orb_true_r|].
  exact IH.
Qed.

(** X13.  The [ipv4] and [ipv6] checkers together accept the strings that
    [net.ParseIP] parses, and no other: an address that parses has a dot or
    a colon, so one of the two checkers takes it. *)
Theorem ipv4_or_ipv6_iff_ParseIP (s : string) :
  IsFormat mkIPV4FormatChecker (VString s) || IsFormat mkIPV6FormatChecker (VString s)
  = negb (is_nil (net.ParseIP s)).
Proof.
  unfold IsFormat, IPV4FormatChecker_IsFormat, IPV6FormatChecker_IsFormat.
  simpl as_string. cbv beta iota zeta.
  rewrite <- andb_orb_distrib_r.
  destruct (net.ParseIP s) as [ip|] eqn:E; [|reflexivity].
  cbn [is_nil negb andb]. apply (ParseIP_scan_separator s s).
  unfold net.ParseIP in E. rewrite E. discriminate.
Qed.


Lemma upto_from (s : string) (i : nat) : s = upto s i +:+ from s i.
Proof.
  revert s. induction i as [|i IH]; intros s; [reflexivity|].
  destruct s as [|c s]; [reflexivity|]. cbn [upto from].
  rewrite append_cons, <- IH. reflexivity.
Qed.

Lemma upto_append (pre s : string) : upto (pre +:+ s) (len pre) = pre.
Proof.
  induction pre as [|c pre IH]; [reflexivity|].
  rewrite append_cons. cbn [len String.length upto]. fold (len pre).
  rewrite IH. reflexivity.
Qed.

Lemma from_append (pre s : string) : from (pre +:+ s) (len pre) = s.
Proof.
  induction pre as [|c pre IH]; [reflexivity|].
  rewrite append_cons. cbn [len String.length from]. exact IH.
Qed.

Lemma from_append_cons (pre : string) (c : ascii) (s : string) :
  from (pre +:+ String c s) (S (len pre)) = s.
Proof.
  induction pre as [|a pre IH]; [reflexivity|].
  rewrite append_cons. cbn [len String.length from]. exact IH.
Qed.

Lemma snoc_append (pre : string) (c : ascii) (s : string) :
  (pre +:+ String c "") +:+ s = pre +:+ String c s.
Proof. rewrite append_assoc. reflexivity. Qed.

Lemma validScheme_snoc (pre : string) (c : ascii) :
  (if (len pre =? 0)%nat then isLetter c = true
   else validScheme pre = true /\ isSchemeByte c = true) ->
  validScheme (pre +:+ String c "") = true.
Proof.
  destruct pre as [|a pre]; cbn [len String.length Nat.eqb].
  - intros Hc. change (validScheme (String c "") = true).
    cbn [validScheme every]. rewrite Hc. reflexivity.
  - intros [Hv Hc]. rewrite append_cons. cbn [validScheme] in *.
    apply andb_true_iff in Hv as [Ha Hp].
    rewrite Ha, every_append, Hp. simpl. rewrite Hc. reflexivity.
Qed.

Lemma getScheme_from_shape (rawURL : string) (s pre : string) :
  rawURL = pre +:+ s ->
  (len pre = 0 \/ validScheme pre = true) ->
  forall scheme rest : string,
    url.getScheme_from (len pre) rawURL s = Some (scheme, rest) ->
    scheme <> "" ->
    rawURL = scheme +:+ String ":" rest /\ validScheme scheme = true.
Proof.
  revert pre. induction s as [|c s IH]; intros pre E Hpre scheme rest.
  - cbn [url.getScheme_from]. intros [= <- <-] Hne. contradiction Hne; reflexivity.
  - cbn [url.getScheme_from].
    assert (Hnext : forall Hc : (if (len pre =? 0)%nat then isLetter c = true
                                 else isSchemeByte c = true),
               url.getScheme_from (S (len pre)) rawURL s = Some (scheme, rest) ->
               scheme <> "" ->
               rawURL = scheme +:+ String ":" rest /\ validScheme scheme = true).
    { intros Hc. replace (S (len pre)) with (len (pre +:+ String c "")).
      - apply IH.
        + rewrite snoc_append. exact E.
        + right. apply validScheme_snoc.
          destruct Hpre as [Hz|Hv].
          * rewrite Hz in *. exact Hc.
          * destruct (len pre =? 0)%nat eqn:Ez.
            -- apply Nat.eqb_eq in Ez. destruct pre; [discriminate Hv|discriminate Ez].
            -- auto.
      - rewrite len_append. cbn. lia. }
    destruct (between "a" "z" c || between "A" "Z" c) eqn:El.
    + apply Hnext. unfold isSchemeByte, isLetter. rewrite El.
      destruct (len pre =? 0)%nat; reflexivity.
    + destruct (between "0" "9" c || eqc c "+" || eqc c "-" || eqc c ".") eqn:Ed.
      * destruct (len pre =? 0)%nat eqn:Ez.
        -- intros [= <- <-] Hne. contradiction Hne; reflexivity.
        -- apply Hnext. unfold isSchemeByte. rewrite Ed.
           apply orb_true_r.
      * destruct (eqc c ":") eqn:Ec.
        -- destruct (len pre =? 0)%nat eqn:Ez; [discriminate|].
           apply eqc_eq in Ec. subst c.
           intros [= <- <-] _. subst rawURL.
           change (match pre +:+ String ":" s with
                   | EmptyString => EmptyString
                   | String _ s' => from s' (len pre)
                   end) with (from (pre +:+ String ":" s) (S (len pre))).
           rewrite upto_append, from_append_cons. split; [reflexivity|].
           destruct Hpre as [Hz|Hv]; [|exact Hv].
           rewrite Hz in Ez. discriminate Ez.
        -- intros [= <- <-] Hne. contradiction Hne; reflexivity.
Qed.

Lemma getScheme_shape (rawURL scheme rest : string) :
  url.getScheme rawURL = Some (scheme, rest) -> scheme <> "" ->
  rawURL = scheme +:+ String ":" rest /\ validScheme scheme = true.
Proof.
  apply (getScheme_from_shape rawURL rawURL ""); [reflexivity|left; reflexivity].
Qed.

Lemma ToLower_nil (s : string) : strings.ToLower s = "" -> s = "".
Proof. destruct s; [reflexivity|discriminate]. Qed.

Lemma parse_Scheme (rawURL : string) (u : url.URL) :
  url.parse rawURL = Some u -> url.Scheme u <> "" ->
  exists scheme rest : string,
    url.getScheme rawURL = Some (scheme, rest) /\ scheme <> "".
Proof.
  unfold url.parse.
  destruct (url.stringContainsCTLByte rawURL); [discriminate|].
  destruct (String.eqb rawURL "*").
  { intros [= <-] Hne. contradiction Hne; reflexivity. }
  destruct (url.getScheme rawURL) as [[scheme rest]|]; [|discriminate].
  cbn [mbind option_bind].
  intros Hu Hs. exists scheme, rest. split; [reflexivity|].
  intros ->. apply Hs. clear Hs. revert Hu.
  repeat match goal with
         | |- context [let '(_, _) := ?x in _] => destruct x
         | |- context [if ?b then _ else _] => destruct b
         | |- context [match ?x with Some _ => _ | None => _ end] => destruct x
         | |- context [?x ≫= _] => destruct x; cbn [mbind option_bind]
         | |- None = Some _ -> _ => discriminate
         | |- Some _ = Some _ -> _ => intros [= <-]; reflexivity
         end.
Qed.

Lemma Cut_before (s sep : string) :
  exists t : string, s = (strings.Cut s sep).1.1 +:+ t.
Proof.
  unfold strings.Cut. destruct (strings.Index s sep) as [i|]; cbn [fst].
  - exists (from s i). apply upto_from.
  - exists "". symmetry. apply append_nil_r.
Qed.

Lemma Parse_Scheme (s : string) (u : url.URL) :
  url.Parse s = Some u ->
  exists u0 : url.URL,
    url.parse (strings.Cut s "#").1.1 = Some u0 /\ url.Scheme u = url.Scheme u0.
Proof.
  unfold url.Parse. destruct (strings.Cut s "#") as [[raw frag] found]. cbn [fst].
  destruct (url.parse raw) as [u0|]; [|discriminate]. cbn [mbind option_bind].
  destruct (String.eqb frag "").
  - intros [= <-]. eauto.
  - destruct (url.unescape frag url.encodeFragment); [|discriminate].
    cbn [mbind option_bind]. intros [= <-]. eauto.
Qed.

(** X14.  A string that the [uri] checker accepts begins with a scheme and
    a colon: a letter, then letters, digits, [+], [-] and [.] up to the
    first colon. *)
Theorem URIFormatChecker_begins_with_scheme (s : string) :
  IsFormat mkURIFormatChecker (VString s) = true ->
  exists scheme rest : string,
    s = scheme +:+ String ":" rest /\ validScheme scheme = true.
Proof.
  intros Hs. apply URIFormatChecker_spec in Hs as [(u & Hu & Hne) _].
  apply Parse_Scheme in Hu as (u0 & Hu0 & E). rewrite E in Hne.
  destruct (parse_Scheme _ _ Hu0 Hne) as (scheme & rest & Hg & Hn).
  destruct (getScheme_shape _ _ _ Hg Hn) as [Hraw Hv].
  destruct (Cut_before s "#") as [t Ht]. rewrite Hraw in Ht.
  exists scheme, (rest +:+ t). split; [|exact Hv].
  rewrite Ht, append_assoc. reflexivity.
Qed.

(** The theorem at a [mailto] URI. *)
Lemma URIFormatChecker_begins_with_scheme_witness :
  exists scheme rest : string,
    "mailto:a@b.c" = scheme +:+ String ":" rest /\ validScheme scheme = true.
Proof. apply (URIFormatChecker_begins_with_scheme "mailto:a@b.c"). reflexivity. Defined.

Lemma parseChunks_app_ext (pre tl1 tl2 : list (string * time.std)) (sfx : string) :
  snd <$> head tl1 = snd <$> head tl2 ->
  (forall f v, time.parseChunks tl1 sfx f v = time.parseChunks tl2 sfx f v) ->
  forall f v,
    time.parseChunks (pre ++ tl1) sfx f v = time.parseChunks (pre ++ tl2) sfx f v.
Proof.
  intros Hh Ht. induction pre as [|[p c] pre IH]; intros f v; [apply Ht|].
  cbn [app]. rewrite !parseChunks_cons.
  assert (E : snd <$> head (pre ++ tl1) = snd <$> head (pre ++ tl2)).
  { destruct pre; [exact Hh|reflexivity]. }
  rewrite E. destruct (time.skip v p) as [v1|]; [|reflexivity].
  cbn [mbind option_bind].
  destruct (time.parseStd c _ f v1) as [[f1 v2]|]; [|reflexivity].
  cbn [mbind option_bind]. apply IH.
Qed.

Lemma digits_run_from (value : string) :
  time.isDigit value 1 = true ->
  (1 + time.digits_run (from value 1) = 2 + time.digits_run (from value 2))%nat.
Proof.
  unfold time.isDigit. destruct value as [|a [|b value]]; try discriminate.
  cbn [andb at_ from time.digits_run len String.length Nat.ltb Nat.leb].
  intros ->. reflexivity.
Qed.

Lemma fraction_in_layout (f : time.fields) (v : string) :
  time.parseChunks
    [(":", time.stdZeroSecond); ("", time.stdFracSecond9);
     ("", time.stdISO8601ColonTZ)] "" f v
  = time.parseChunks
      [(":", time.stdZeroSecond); ("", time.stdISO8601ColonTZ)] "" f v.
Proof.
  rewrite (parseChunks_cons ":" time.stdZeroSecond [(_, time.stdFracSecond9); _]).
  rewrite (parseChunks_cons ":" time.stdZeroSecond [(_, time.stdISO8601ColonTZ)]).
  destruct (time.skip v ":") as [v1|]; [|reflexivity].
  cbn [mbind option_bind head fmap option_map snd list_fmap].
  unfold time.parseStd.
  destruct (time.getnum v1 true) as [[s value]|]; [|reflexivity].
  cbn [mbind option_bind].
  destruct ((s <? 0)%Z || (60 <=? s)%Z); [reflexivity|].
  cbv zeta. cbn [time.isFrac head fmap option_fmap option_map snd].
  assert (F : forall f' : time.fields,
             time.parseChunks
               [("", time.stdFracSecond9); ("", time.stdISO8601ColonTZ)] "" f' value
             = '(f2, v2) ← time.parseStd time.stdFracSecond9
                             (Some time.stdISO8601ColonTZ) f' value;
               time.parseChunks [("", time.stdISO8601ColonTZ)] "" f2 v2).
  { intros f'. rewrite (parseChunks_cons "" time.stdFracSecond9), skip_empty.
    reflexivity. }
  destruct ((2 <=? len value)%nat && time.commaOrPeriod (at_ value 0)
            && time.isDigit value 1) eqn:C.
  - cbn [mbind option_bind]. rewrite F. unfold time.parseStd.
    apply andb_true_iff in C as [C C3]. apply andb_true_iff in C as [C1 C2].
    pose proof C3 as C3'. unfold time.isDigit in C3'.
    apply andb_true_iff in C3' as [_ C4].
    apply Nat.leb_le in C1.
    replace (len value <? 2)%nat with false by (symmetry; apply Nat.ltb_ge; exact C1).
    rewrite C2, C4. cbn [negb orb]. cbv zeta.
    rewrite (digits_run_from value C3).
    destruct (time.parseNanoseconds value _) as [ns|]; reflexivity.
  - cbn [mbind option_bind]. rewrite F. unfold time.parseStd.
    replace ((len value <? 2)%nat || negb (time.commaOrPeriod (at_ value 0))
             || negb (between "0" "9" (at_ value 1))) with true; [reflexivity|].
    symmetry. unfold time.isDigit in C.
    destruct (Nat.ltb_spec (len value) 2) as [Hl|Hl]; [reflexivity|].
    destruct (time.commaOrPeriod (at_ value 0)); [|reflexivity].
    destruct (between "0" "9" (at_ value 1)); [|reflexivity].
    exfalso. cbn [negb orb] in *.
    replace (2 <=? len value)%nat with true in C by (symmetry; apply Nat.leb_le; lia).
    replace (1 <? len value)%nat with true in C by (symmetry; apply Nat.ltb_lt; lia).
    discriminate C.
Qed.

Lemma Parse_RFC3339Nano (s : string) :
  time.Parse time.RFC3339Nano s = time.Parse time.RFC3339 s.
Proof.
  unfold time.Parse, time.RFC3339Nano, time.RFC3339, time.chunks, time.suffix.
  pose proof (parseChunks_app_ext
             [("", time.stdLongYear); ("-", time.stdZeroMonth); ("-", time.stdZeroDay);
              ("T", time.stdHour); (":", time.stdZeroMinute)]
             [(":", time.stdZeroSecond); ("", time.stdFracSecond9);
              ("", time.stdISO8601ColonTZ)]
             [(":", time.stdZeroSecond); ("", time.stdISO8601ColonTZ)] ""
             eq_refl fraction_in_layout time.init s) as E.
  cbn [app] in E. rewrite E. reflexivity.
Qed.

(** X15.  The [date-time] checker accepts a string when the [time] checker
    or the [date] checker accepts it, or when it parses under
    [time.RFC3339]; the layout [time.RFC3339Nano] of its list adds
    nothing, since [time.Parse] reads a fraction of a second under
    [time.RFC3339] as well. *)
Theorem DateTimeFormatChecker_layouts (s : string) :
  IsFormat mkDateTimeFormatChecker (VString s)
  = IsFormat mkTimeFormatChecker (VString s)
    || IsFormat mkDateFormatChecker (VString s)
    || negb (is_nil (time.Parse time.RFC3339 s)).
Proof.
  unfold IsFormat, DateTimeFormatChecker_IsFormat, TimeFormatChecker_IsFormat,
    DateFormatChecker_IsFormat.
  simpl as_string. cbv beta iota zeta. cbn [existsb].
  rewrite Parse_RFC3339Nano.
  destruct (negb (is_nil (time.Parse time.layoutTime s)));
    destruct (negb (is_nil (time.Parse time.layoutTimeZone s)));
    destruct (negb (is_nil (time.Parse time.layoutDate s)));
    destruct (negb (is_nil (time.Parse time.RFC3339 s))); reflexivity.
Qed.

(** ** Message makers: the text of a message *)




(** X17.  The forty message makers of [locales.go] are bound to forty
    different codes: the [Code] of a message tells which maker made it. *)
Theorem message_codes_distinct :
  NoDup (map (fun b : string * string * messageMaker => b.1.1) messageMakers).
Proof. apply (bool_decide_unpack _). vm_compute. reflexivity. Qed.
